(** * briefcase.integrations.xcode: tool probing for Xcode and simctl

    A shallow embedding of [src/briefcase/integrations/xcode.py]:
    [ensure_xcode_is_installed], [get_simulators] and [get_device_state],
    together with the part of the Python runtime they rely on (string
    splitting, tuple comparison, subscripting and iteration of decoded
    JSON values, dictionary comprehensions, exceptions).

    Conventions.
    - A Python [str] is a [string]; each character is a code point below
      256.  Every literal and separator of the source is ASCII.
    - A Python [int] is a [Z]; a tuple of integers is a [list Z].
    - A call either returns a value or raises: [result].  The only
      function that prints, [ensure_xcode_is_installed], also yields the
      list of the strings it printed: [io].
    - The callable [sub.check_output] is an argument of each function, as
      in the source: it maps the argument vector to the captured output
      or to the exception the call raises.
    - The builtins [int] and [json.loads] are variables of the sections
      that use them, so every general theorem holds whatever they do on
      unusual inputs; [Py.int_of_str] is a model of [int] used to run the
      code on concrete outputs. *)

From Stdlib Require Import ZArith String Ascii List Bool Lia.
From stdpp Require Import base tactics option list strings pretty.

Open Scope string_scope.
Open Scope Z_scope.

(** ** Exceptions and results *)

Inductive exception : Type :=
  | BriefcaseCommandError (msg : string)
  | CalledProcessError
  | FileNotFoundError
  | ValueError
  | IndexError
  | KeyError
  | TypeError
  | AttributeError
  | JSONDecodeError.

Inductive result (A : Type) : Type :=
  | Return (a : A)
  | Raise (e : exception).
Arguments Return {A} a.
Arguments Raise {A} e.

#[global] Instance result_ret : MRet result := fun A a => Return a.
#[global] Instance result_bind : MBind result := fun A B f m =>
  match m with
  | Return a => f a
  | Raise e => Raise e
  end.

(** [try: body except handler]: the handler maps an exception to [Some]
    replacement when an [except] clause matches it and to [None] when
    none does, in which case the exception propagates. *)
Definition try_except {A} (body : result A)
    (handler : exception -> option (result A)) : result A :=
  match body with
  | Return a => Return a
  | Raise e => match handler e with Some r => r | None => Raise e end
  end.

(** A computation that may print before it returns or raises. *)
Record io (A : Type) : Type := IO { printed : list string; outcome : result A }.
Arguments IO {A} printed outcome.
Arguments printed {A} i.
Arguments outcome {A} i.

#[global] Instance io_ret : MRet io := fun A a => IO [] (Return a).
#[global] Instance io_bind : MBind io := fun A B f m =>
  match outcome m with
  | Return a => IO (printed m ++ printed (f a)) (outcome (f a))
  | Raise e => IO (printed m) (Raise e)
  end.

Definition lift {A} (r : result A) : io A := IO [] r.
Definition raise {A} (e : exception) : io A := IO [] (Raise e).
(** [print(s)]: the argument is recorded, without the line end that
    [print] adds. *)
Definition print (s : string) : io unit := IO [s] (Return tt).

Definition io_try_except {A} (body : io A)
    (handler : exception -> option (io A)) : io A :=
  match outcome body with
  | Return a => body
  | Raise e =>
      match handler e with
      | Some h => IO (printed body ++ printed h) (outcome h)
      | None => body
      end
  end.

(** ** The Python runtime used by the module *)

Module Py.

Definition LF : string := String (ascii_of_nat 10) "".

(** [s.split(sep)] for a separator of one character. *)
Fixpoint split (sep : ascii) (s : string) : list string :=
  match s with
  | EmptyString => [EmptyString]
  | String c s' =>
      if Ascii.eqb c sep then EmptyString :: split sep s'
      else match split sep s' with
           | w :: ws => String c w :: ws
           | [] => [String c EmptyString]
           end
  end.

(** [s.split(sep, 1)]: at most one split, at the first separator. *)
Fixpoint split1 (sep : ascii) (s : string) : list string :=
  match s with
  | EmptyString => [EmptyString]
  | String c s' =>
      if Ascii.eqb c sep then [EmptyString; s']
      else match split1 sep s' with
           | w :: ws => String c w :: ws
           | [] => [String c EmptyString]
           end
  end.

(** [l[i]] for a list and a non-negative literal index. *)
Definition index {A} (l : list A) (i : nat) : result A :=
  match nth_error l i with
  | Some x => Return x
  | None => Raise IndexError
  end.

Definition startswith (s prefix : string) : bool := String.prefix prefix s.

(** [sep.join(l)] *)
Definition join (sep : string) (l : list string) : string := String.concat sep l.

(** [str(n)] for an integer. *)
Definition str (n : Z) : string := pretty n.

(** [a < b] on tuples of integers: the first position where the
    components differ decides; when one is a prefix of the other, the
    shorter is the smaller. *)
Fixpoint tuple_lt (a b : list Z) : bool :=
  match a, b with
  | [], [] => false
  | [], _ :: _ => true
  | _ :: _, [] => false
  | x :: a', y :: b' => if x =? y then tuple_lt a' b' else x <? y
  end.

(** *** A model of [int(s)] for a string argument, base 10

    Surrounding whitespace is dropped, one sign is allowed, then come
    decimal digits, where single underscores may separate digits. *)

Definition is_space (c : ascii) : bool :=
  let n := nat_of_ascii c in
  ((9 <=? n) && (n <=? 13) || (28 <=? n) && (n <=? 32)
   || (n =? 133) || (n =? 160))%nat.

Fixpoint lstrip (s : string) : string :=
  match s with
  | String c s' => if is_space c then lstrip s' else s
  | EmptyString => EmptyString
  end.

Fixpoint rstrip (s : string) : string :=
  match s with
  | String c s' =>
      match rstrip s' with
      | EmptyString => if is_space c then EmptyString else String c EmptyString
      | r => String c r
      end
  | EmptyString => EmptyString
  end.

Definition digit_value (c : ascii) : option Z :=
  let n := nat_of_ascii c in
  if ((48 <=? n) && (n <=? 57))%nat then Some (Z.of_nat n - 48) else None.

Fixpoint digits (acc : Z) (after_digit : bool) (s : string) : option Z :=
  match s with
  | EmptyString => if after_digit then Some acc else None
  | String c s' =>
      match digit_value c with
      | Some d => digits (10 * acc + d) true s'
      | None =>
          if Ascii.eqb c "_" && after_digit then digits acc false s' else None
      end
  end.

Definition int_of_str (s : string) : option Z :=
  match rstrip (lstrip s) with
  | String "-" s' => Z.opp <$> digits 0 false s'
  | String "+" s' => digits 0 false s'
  | s' => digits 0 false s'
  end.

(** *** Values decoded from JSON

    [json.loads] yields [None], booleans, integers, strings, lists and
    dictionaries with string keys.  A dictionary keeps its members in
    insertion order and its keys are pairwise distinct.  Numbers with a
    fraction or an exponent are not represented: no field the module
    reads holds one. *)

#[local] Set Warnings "-register-all".
Inductive json : Type :=
  | JNull
  | JBool (b : bool)
  | JNum (n : Z)
  | JStr (s : string)
  | JArr (items : list json)
  | JObj (members : list (string * json)).

(** The truth value of an object, as tested by [if] and [and]. *)
Definition truthy (v : json) : bool :=
  match v with
  | JNull => false
  | JBool b => b
  | JNum n => negb (n =? 0)
  | JStr s => negb (String.eqb s "")
  | JArr l => match l with [] => false | _ => true end
  | JObj m => match m with [] => false | _ => true end
  end.

Definition hashable (v : json) : bool :=
  match v with
  | JArr _ | JObj _ => false
  | _ => true
  end.

(** [a == b] for two hashable values: booleans compare as the integers
    0 and 1. *)
Definition key_eqb (a b : json) : bool :=
  match a, b with
  | JNull, JNull => true
  | JBool x, JBool y => Bool.eqb x y
  | JBool x, JNum n | JNum n, JBool x => Z.b2z x =? n
  | JNum n, JNum m => n =? m
  | JStr s, JStr t => String.eqb s t
  | _, _ => false
  end.

(** [v == s] where [s] is a string. *)
Definition eq_str (v : json) (s : string) : bool :=
  match v with
  | JStr t => String.eqb t s
  | _ => false
  end.

(** Lookup in an association list, first match. *)
Fixpoint assoc {V} (k : string) (m : list (string * V)) : option V :=
  match m with
  | [] => None
  | (k', v) :: m' => if String.eqb k' k then Some v else assoc k m'
  end.

(** [l[n]] for an integer [n]: a negative index counts from the end. *)
Definition index_int {A} (l : list A) (n : Z) : result A :=
  let i := if n <? 0 then n + Z.of_nat (length l) else n in
  if i <? 0 then Raise IndexError else index l (Z.to_nat i).

Definition chars (s : string) : list json :=
  map (fun c => JStr (String c EmptyString)) (list_ascii_of_string s).

(** [c[k]] *)
Definition getitem (c k : json) : result json :=
  match c with
  | JObj m =>
      match k with
      | JStr s => match assoc s m with
                  | Some v => Return v
                  | None => Raise KeyError
                  end
      | JArr _ | JObj _ => Raise TypeError
      | _ => Raise KeyError
      end
  | JArr l =>
      match k with
      | JNum n => index_int l n
      | JBool b => index_int l (Z.b2z b)
      | _ => Raise TypeError
      end
  | JStr s =>
      match k with
      | JNum n => index_int (chars s) n
      | JBool b => index_int (chars s) (Z.b2z b)
      | _ => Raise TypeError
      end
  | _ => Raise TypeError
  end.

(** The elements visited by [for x in v]. *)
Definition iter (v : json) : result (list json) :=
  match v with
  | JArr l => Return l
  | JObj m => Return (map (fun kv => JStr (fst kv)) m)
  | JStr s => Return (chars s)
  | _ => Raise TypeError
  end.

(** [v.items()] *)
Definition items (v : json) : result (list (string * json)) :=
  match v with
  | JObj m => Return m
  | _ => Raise AttributeError
  end.

(** [v.startswith(p)] and [v.split(sep, 1)]: only strings have these
    methods. *)
Definition startswith_ (v : json) (p : string) : result bool :=
  match v with
  | JStr s => Return (startswith s p)
  | _ => Raise AttributeError
  end.

Definition split1_ (v : json) (sep : ascii) : result (list string) :=
  match v with
  | JStr s => Return (split1 sep s)
  | _ => Raise AttributeError
  end.

(** *** Dictionaries built by the module

    A dictionary is the list of its items in insertion order.  Storing
    under a key equal to one already present replaces the value and
    leaves the key and its position as they are. *)

Definition dict (K V : Type) : Type := list (K * V).

Fixpoint setitem {K V} (eqb : K -> K -> bool) (k : K) (v : V)
    (d : dict K V) : dict K V :=
  match d with
  | [] => [(k, v)]
  | (k', v') :: d' =>
      if eqb k' k then (k', v) :: d' else (k', v') :: setitem eqb k v d'
  end.

Fixpoint get {K V} (eqb : K -> K -> bool) (k : K) (d : dict K V) : option V :=
  match d with
  | [] => None
  | (k', v) :: d' => if eqb k' k then Some v else get eqb k d'
  end.

(** Storing under a string key, and under a decoded value, which has to
    be hashable. *)
Definition set_str {V} (k : string) (v : V) (d : dict string V)
    : result (dict string V) :=
  Return (setitem String.eqb k v d).

Definition set_json {V} (k : json) (v : V) (d : dict json V)
    : result (dict json V) :=
  if hashable k then Return (setitem key_eqb k v d) else Raise TypeError.

(** [{key: value for x in xs if cond}]: [body x] is [None] when
    the condition fails and the item otherwise; [acc] holds the items
    stored so far. *)
Fixpoint dict_comprehension {A K V}
    (set : K -> V -> dict K V -> result (dict K V))
    (body : A -> result (option (K * V)))
    (xs : list A) (acc : dict K V) : result (dict K V) :=
  match xs with
  | [] => Return acc
  | x :: xs' =>
      item ← body x;
      acc' ← match item with
              | Some (k, v) => set k v acc
              | None => Return acc
              end;
      dict_comprehension set body xs' acc'
  end.

End Py.

(** ** The enumeration DeviceState *)

Inductive DeviceState : Type := SHUTDOWN | BOOTED | SHUTTING_DOWN | UNKNOWN.

(** The value of each member of the enumeration. *)
Definition DeviceState_value (s : DeviceState) : Z :=
  match s with
  | SHUTDOWN => 0
  | BOOTED => 1
  | SHUTTING_DOWN => 10
  | UNKNOWN => 99
  end.

(** ** ensure_xcode_is_installed *)

Definition xcode_not_installed : string :=
  Py.LF ++ "Xcode is not installed." ++ Py.LF ++
  Py.LF ++ "You can install Xcode from the macOS App Store." ++ Py.LF.

Definition version_warning : string :=
  Py.LF ++
  "*************************************************************************" ++ Py.LF ++
  "** WARNING: Unable to determine the version of Xcode that is installed **" ++ Py.LF ++
  "*************************************************************************" ++ Py.LF ++
  Py.LF ++
  "   Briefcase will proceed assume everything is OK, but if you" ++ Py.LF ++
  "   experience problems, this is almost certainly the cause of those" ++ Py.LF ++
  "   problems." ++ Py.LF ++
  Py.LF ++
  "   Please report this as a bug at:" ++ Py.LF ++
  Py.LF ++
  "     https://github.com/beeware/briefcase/issues/" ++ Py.LF ++
  Py.LF ++
  "   In your report, please including the output from running:" ++ Py.LF ++
  Py.LF ++
  "     xcodebuild -version" ++ Py.LF ++
  Py.LF ++
  "   from the command prompt." ++ Py.LF ++
  Py.LF ++
  "*************************************************************************" ++ Py.LF ++
  Py.LF.

(** The message of the error raised when the installed version is older
    than the required one. *)
Definition version_too_low (min_version version : list Z) : string :=
  "Xcode " ++ Py.join "." (map Py.str min_version) ++ " is required; "
  ++ Py.join "." (map Py.str version) ++ " is installed. Please update Xcode.".

(** The argument vector of the version command. *)
Definition xcodebuild_version : list string := ["xcodebuild"; "-version"].

(** How the block guarded by [if min_version is not None] is left: by its
    [return] statement, or by reaching the statement after it. *)
Inductive exit : Type := Returned | FellThrough.

Section EnsureXcode.

(** The builtin [int] applied to a string: [None] stands for
    [ValueError]. *)
Variable int : string -> option Z.

Definition int_ (v : string) : result Z :=
  match int v with
  | Some n => Return n
  | None => Raise ValueError
  end.

(** Lines 43-46.  The iterable of the generator,
    [output.split('\n')[0].split(' ')[1].split('.')], is evaluated first;
    then [int] is applied to its pieces from left to right and [(0, 0)]
    is appended to the tuple of the results. *)
Definition version_pieces (output : string) : result (list string) :=
  line ← Py.index (Py.split (ascii_of_nat 10) output) 0;
  word ← Py.index (Py.split " " line) 1;
  mret (Py.split "." word).

Definition installed_version (output : string) : result (list Z) :=
  pieces ← version_pieces output;
  parsed ← mapM int_ pieces;
  mret (parsed ++ [0; 0])%list.

Definition ensure_xcode_is_installed (min_version : option (list Z))
    (sub_check_output : list string -> result string) : io unit :=
  io_try_except
    (output ← lift (sub_check_output xcodebuild_version);
     match min_version with
     | Some min_version =>
         how ←
           (if Py.startswith output "Xcode " then
              io_try_except
                (version ← lift (installed_version output);
                 if Py.tuple_lt version min_version
                 then raise (BriefcaseCommandError
                               (version_too_low min_version version))
                 else mret Returned)
                (fun e => match e with
                          | IndexError => Some (mret FellThrough)
                          | _ => None
                          end)
            else mret FellThrough);
         match how with
         | Returned => mret tt
         | FellThrough => print version_warning
         end
     | None => mret tt
     end)
    (fun e => match e with
              | CalledProcessError =>
                  Some (raise (BriefcaseCommandError xcode_not_installed))
              | _ => None
              end).

End EnsureXcode.

(** A [check_output] that does the same for every argument vector. *)
Definition always {A} (r : result A) : list string -> result A := fun _ => r.

(** ** get_simulators *)

(** [c[k]] for a string literal [k]. *)
Notation "c .[ k ]" := (Py.getitem c (Py.JStr k))
  (at level 1, k at level 200, left associativity, format "c .[ k ]").

(** The argument vectors of the two listing commands. *)
Definition simctl_list : list string := ["xcrun"; "simctl"; "list"; "-j"].
Definition simctl_list_devices (udid : string) : list string :=
  ["xcrun"; "simctl"; "list"; "devices"; "-j"; udid].

Section Simctl.

(** [json.loads] *)
Variable json_loads : string -> result Py.json.

(** Lines 112-117:
    [{runtime['name'].split(' ', 1)[1]: runtime['identifier']
      for runtime in simctl_data['runtimes']
      if runtime['name'].startswith('{os_name} '.format(os_name=os_name))
      and runtime['isAvailable']}]
    The condition is evaluated first, [and] reading its second operand
    only when the first holds; then come the key and the value of the
    item. *)
Definition os_versions_item (os_name : string) (runtime : Py.json)
    : result (option (string * Py.json)) :=
  name ← runtime.["name"];
  starts ← Py.startswith_ name (os_name ++ " ");
  keep ← (if starts : bool
          then available ← runtime.["isAvailable"]; mret (Py.truthy available)
          else mret false);
  if keep : bool then
    name ← runtime.["name"];
    parts ← Py.split1_ name " ";
    version ← Py.index parts 1;
    identifier ← runtime.["identifier"];
    mret (Some (version, identifier))
  else mret None.

Definition os_versions_of (os_name : string) (simctl_data : Py.json)
    : result (Py.dict string Py.json) :=
  runtimes ← simctl_data.["runtimes"];
  runtimes ← Py.iter runtimes;
  Py.dict_comprehension Py.set_str (os_versions_item os_name) runtimes [].

(** Lines 120-124:
    [{device['udid']: device['name']
      for device in simctl_data['devices'][identifier]
      if device['isAvailable']}] *)
Definition devices_item (device : Py.json)
    : result (option (Py.json * Py.json)) :=
  available ← device.["isAvailable"];
  if Py.truthy available then
    udid ← device.["udid"];
    name ← device.["name"];
    mret (Some (udid, name))
  else mret None.

Definition devices_of (simctl_data identifier : Py.json)
    : result (Py.dict Py.json Py.json) :=
  devices ← simctl_data.["devices"];
  devices ← Py.getitem devices identifier;
  devices ← Py.iter devices;
  Py.dict_comprehension Py.set_json devices_item devices [].

(** Lines 119-126: one inner dictionary for each item of [os_versions]. *)
Definition simulators_of (simctl_data : Py.json)
    (os_versions : Py.dict string Py.json)
    : result (Py.dict string (Py.dict Py.json Py.json)) :=
  Py.dict_comprehension Py.set_str
    (fun item : string * Py.json =>
       let (version, identifier) := item in
       inner ← devices_of simctl_data identifier;
       mret (Some (version, inner)))
    os_versions [].

Definition simctl_failed : exception :=
  BriefcaseCommandError "Unable to run xcrun simctl.".

Definition get_simulators (os_name : string)
    (sub_check_output : list string -> result string)
    : result (Py.dict string (Py.dict Py.json Py.json)) :=
  try_except
    (output ← sub_check_output simctl_list;
     simctl_data ← json_loads output;
     os_versions ← os_versions_of os_name simctl_data;
     simulators ← simulators_of simctl_data os_versions;
     mret simulators)
    (fun e => match e with
              | CalledProcessError => Some (Raise simctl_failed)
              | _ => None
              end).

(** ** get_device_state *)

(** The dictionary literal of lines 156-160. *)
Definition state_table : Py.dict string DeviceState :=
  [("Booted", BOOTED); ("Shutting Down", SHUTTING_DOWN); ("Shutdown", SHUTDOWN)].

(** [state_table.get(key, DeviceState.UNKNOWN)] *)
Definition state_table_get (key : Py.json) : result DeviceState :=
  match key with
  | Py.JStr s => Return (default UNKNOWN (Py.get String.eqb s state_table))
  | Py.JArr _ | Py.JObj _ => Raise TypeError
  | _ => Return UNKNOWN
  end.

(** The inner loop of lines 154-160: [Some] state when the loop is left
    by [return], [None] when it runs to its end. *)
Fixpoint find_in_devices (udid : string) (devices : list Py.json)
    : result (option DeviceState) :=
  match devices with
  | [] => Return None
  | device :: devices' =>
      u ← device.["udid"];
      if Py.eq_str u udid then
        state ← device.["state"];
        found ← state_table_get state;
        mret (Some found)
      else find_in_devices udid devices'
  end.

(** The outer loop of line 153. *)
Fixpoint find_in_runtimes (udid : string) (groups : list (string * Py.json))
    : result (option DeviceState) :=
  match groups with
  | [] => Return None
  | (runtime, devices) :: groups' =>
      devices ← Py.iter devices;
      found ← find_in_devices udid devices;
      match found with
      | Some state => Return (Some state)
      | None => find_in_runtimes udid groups'
      end
  end.

Definition device_not_found (udid : string) : exception :=
  BriefcaseCommandError ("Unable to determine status of device " ++ udid ++ ".").

Definition get_device_state (udid : string)
    (sub_check_output : list string -> result string) : result DeviceState :=
  try_except
    (output ← sub_check_output (simctl_list_devices udid);
     simctl_data ← json_loads output;
     devices ← simctl_data.["devices"];
     groups ← Py.items devices;
     found ← find_in_runtimes udid groups;
     match found with
     | Some state => Return state
     | None => Raise (device_not_found udid)
     end)
    (fun e => match e with
              | CalledProcessError => Some (Raise simctl_failed)
              | _ => None
              end).

End Simctl.

(** ** Notions used to state the properties *)

(** Lexicographic order on versions: a proper prefix is smaller, otherwise
    the first differing component decides. *)
Inductive lex_lt : list Z -> list Z -> Prop :=
  | lex_lt_prefix y b : lex_lt [] (y :: b)
  | lex_lt_head x y a b : x < y -> lex_lt (x :: a) (y :: b)
  | lex_lt_tail x a b : lex_lt a b -> lex_lt (x :: a) (x :: b).

Definition lex_le (a b : list Z) : Prop := a = b \/ lex_lt a b.

(** [has_char c s]: the character [c] occurs in [s]. *)
Fixpoint has_char (c : ascii) (s : string) : bool :=
  match s with
  | EmptyString => false
  | String c' s' => Ascii.eqb c' c || has_char c s'
  end.

(** A dotted version is a word: it holds no space and no line feed. *)
Definition is_word (w : string) : bool :=
  negb (has_char " " w) && negb (has_char (ascii_of_nat 10) w).

(** What follows the version in the output: nothing, or text that starts
    with a space or a line feed. *)
Definition ends_word (rest : string) : bool :=
  match rest with
  | EmptyString => true
  | String c _ => Ascii.eqb c " " || Ascii.eqb c (ascii_of_nat 10)
  end.

(** *** Listing payloads

    The wire contract of the listing command: [runtimes] is an array of
    objects with a [name], an [identifier] and an [isAvailable] flag;
    [devices] maps a runtime identifier to an array of objects with a
    [udid], a [name], an [isAvailable] flag and a [state]. *)

Definition field (k : string) (o : Py.json) : Py.json :=
  match o.[k] with
  | Return v => v
  | Raise _ => Py.JNull
  end.

Definition text (v : Py.json) : string :=
  match v with
  | Py.JStr s => s
  | _ => EmptyString
  end.

Definition is_runtime (runtime : Py.json) : bool :=
  match runtime.["name"], runtime.["identifier"], runtime.["isAvailable"] with
  | Return (Py.JStr _), Return (Py.JStr _), Return (Py.JBool _) => true
  | _, _, _ => false
  end.

Definition is_device (device : Py.json) : bool :=
  match device.["udid"], device.["name"], device.["isAvailable"], device.["state"] with
  | Return (Py.JStr _), Return (Py.JStr _), Return (Py.JBool _), Return (Py.JStr _) => true
  | _, _, _, _ => false
  end.

Definition is_device_list (v : Py.json) : bool :=
  match v with
  | Py.JArr devices => forallb is_device devices
  | _ => false
  end.

Definition runtime_name (runtime : Py.json) : string := text (field "name" runtime).
Definition runtime_identifier (runtime : Py.json) : string :=
  text (field "identifier" runtime).
Definition is_available (o : Py.json) : bool := Py.truthy (field "isAvailable" o).
Definition device_udid (device : Py.json) : string := text (field "udid" device).
Definition device_name (device : Py.json) : string := text (field "name" device).
Definition device_state_label (device : Py.json) : string :=
  text (field "state" device).

(** Everything after the first space. *)
Fixpoint after_first_space (s : string) : string :=
  match s with
  | EmptyString => EmptyString
  | String c s' => if Ascii.eqb c " " then s' else after_first_space s'
  end.

(** A runtime is retained for [os_name] when its name starts with
    ['<os_name> '] and it is available; its OS version is what follows
    the first space of its name. *)
Definition retained (os_name : string) (runtime : Py.json) : bool :=
  Py.startswith (runtime_name runtime) (os_name ++ " ") && is_available runtime.

Definition os_version (runtime : Py.json) : string :=
  after_first_space (runtime_name runtime).

Definition runtimes_of (simctl_data : Py.json) : list Py.json :=
  match field "runtimes" simctl_data with
  | Py.JArr runtimes => runtimes
  | _ => []
  end.

Definition device_groups (simctl_data : Py.json) : list (string * Py.json) :=
  match field "devices" simctl_data with
  | Py.JObj groups => groups
  | _ => []
  end.

(** The device list recorded under a runtime identifier. *)
Definition devices_under (simctl_data : Py.json) (identifier : string)
    : list Py.json :=
  match Py.assoc identifier (device_groups simctl_data) with
  | Some (Py.JArr devices) => devices
  | _ => []
  end.

(** Every device entry of the payload, runtime after runtime. *)
Definition all_devices (simctl_data : Py.json) : list Py.json :=
  concat (map (fun group : string * Py.json =>
                 match snd group with
                 | Py.JArr devices => devices
                 | _ => []
                 end)
              (device_groups simctl_data)).

Definition well_formed_devices (simctl_data : Py.json) : bool :=
  match simctl_data.["devices"] with
  | Return (Py.JObj groups) =>
      forallb (fun group : string * Py.json => is_device_list (snd group)) groups
  | _ => false
  end.

Definition has_devices (simctl_data : Py.json) (identifier : string) : bool :=
  match Py.assoc identifier (device_groups simctl_data) with
  | Some _ => true
  | None => false
  end.

Definition well_formed_listing (os_name : string) (simctl_data : Py.json) : bool :=
  match simctl_data.["runtimes"] with
  | Return (Py.JArr runtimes) =>
      forallb is_runtime runtimes
      && well_formed_devices simctl_data
      && forallb (fun runtime =>
                    negb (retained os_name runtime)
                    || has_devices simctl_data (runtime_identifier runtime))
                 runtimes
  | _ => false
  end.

(** The dictionary that holds the given items: an item whose key is
    already present replaces the value stored under that key. *)
Definition dict_of {K V} (eqb : K -> K -> bool) (items : list (K * V))
    : Py.dict K V :=
  fold_left (fun d (item : K * V) => Py.setitem eqb (fst item) (snd item) d)
            items [].

(** The inventory described by the specification: one entry for each
    retained runtime, keyed by its OS version, holding the mapping from
    udid to name of the available devices listed under the identifier
    of the runtime. *)
Definition available_devices (simctl_data : Py.json) (identifier : string)
    : Py.dict Py.json Py.json :=
  dict_of Py.key_eqb
    (map (fun device => (field "udid" device, field "name" device))
         (List.filter is_available (devices_under simctl_data identifier))).

Definition retained_versions (os_name : string) (simctl_data : Py.json)
    : Py.dict string Py.json :=
  dict_of String.eqb
    (map (fun runtime => (os_version runtime, field "identifier" runtime))
         (List.filter (retained os_name) (runtimes_of simctl_data))).

Definition expected_simulators (os_name : string) (simctl_data : Py.json)
    : Py.dict string (Py.dict Py.json Py.json) :=
  map (fun item : string * Py.json =>
         (fst item, available_devices simctl_data (text (snd item))))
      (retained_versions os_name simctl_data).

(** The fixed table of the specification, with its default. *)
Definition expected_state (label : string) : DeviceState :=
  if String.eqb label "Booted" then BOOTED
  else if String.eqb label "Shutting Down" then SHUTTING_DOWN
  else if String.eqb label "Shutdown" then SHUTDOWN
  else UNKNOWN.

(** The first device entry of the payload with the given udid. *)
Definition first_device (udid : string) (simctl_data : Py.json) : option Py.json :=
  List.find (fun device => String.eqb (device_udid device) udid)
            (all_devices simctl_data).

(** *** Sample payloads

    The text printed by the listing command and the value [json.loads]
    decodes it to, for the examples below. *)

Definition quoted (s : string) : string :=
  String (ascii_of_nat 34) s ++ String (ascii_of_nat 34) "".

Definition ios_14 : string := "com.apple.CoreSimulator.SimRuntime.iOS-14-0".
Definition ios_13 : string := "com.apple.CoreSimulator.SimRuntime.iOS-13-2".

Definition runtime_entry (name identifier : string) (available : bool) : Py.json :=
  Py.JObj [("name", Py.JStr name); ("identifier", Py.JStr identifier);
           ("isAvailable", Py.JBool available)].

Definition device_entry (udid name : string) (available : bool) (state : string)
    : Py.json :=
  Py.JObj [("udid", Py.JStr udid); ("name", Py.JStr name);
           ("isAvailable", Py.JBool available); ("state", Py.JStr state)].

(** One available iOS 14.0 runtime with one available device. *)
Definition listing_text : string :=
  "{" ++ quoted "runtimes" ++ ": [{" ++ quoted "name" ++ ": " ++ quoted "iOS 14.0"
  ++ ", " ++ quoted "identifier" ++ ": " ++ quoted ios_14
  ++ ", " ++ quoted "isAvailable" ++ ": true}], "
  ++ quoted "devices" ++ ": {" ++ quoted ios_14 ++ ": [{"
  ++ quoted "udid" ++ ": " ++ quoted "ABC" ++ ", "
  ++ quoted "name" ++ ": " ++ quoted "iPhone 11" ++ ", "
  ++ quoted "isAvailable" ++ ": true, "
  ++ quoted "state" ++ ": " ++ quoted "Booted" ++ "}]}}".

Definition listing : Py.json :=
  Py.JObj
    [("runtimes", Py.JArr [runtime_entry "iOS 14.0" ios_14 true]);
     ("devices",
      Py.JObj [(ios_14, Py.JArr [device_entry "ABC" "iPhone 11" true "Booted"])])].

(** An iOS 13.2 runtime whose only device is unavailable, next to the
    iOS 14.0 runtime. *)
Definition listing_old_text : string :=
  "{" ++ quoted "runtimes" ++ ": [{" ++ quoted "name" ++ ": " ++ quoted "iOS 13.2"
  ++ ", " ++ quoted "identifier" ++ ": " ++ quoted ios_13
  ++ ", " ++ quoted "isAvailable" ++ ": true}, {"
  ++ quoted "name" ++ ": " ++ quoted "iOS 14.0"
  ++ ", " ++ quoted "identifier" ++ ": " ++ quoted ios_14
  ++ ", " ++ quoted "isAvailable" ++ ": true}], "
  ++ quoted "devices" ++ ": {" ++ quoted ios_13 ++ ": [{"
  ++ quoted "udid" ++ ": " ++ quoted "DEF" ++ ", "
  ++ quoted "name" ++ ": " ++ quoted "iPhone 8" ++ ", "
  ++ quoted "isAvailable" ++ ": false, "
  ++ quoted "state" ++ ": " ++ quoted "Creating" ++ "}], "
  ++ quoted ios_14 ++ ": [{"
  ++ quoted "udid" ++ ": " ++ quoted "ABC" ++ ", "
  ++ quoted "name" ++ ": " ++ quoted "iPhone 11" ++ ", "
  ++ quoted "isAvailable" ++ ": true, "
  ++ quoted "state" ++ ": " ++ quoted "Booted" ++ "}]}}".

Definition listing_old : Py.json :=
  Py.JObj
    [("runtimes", Py.JArr [runtime_entry "iOS 13.2" ios_13 true;
                           runtime_entry "iOS 14.0" ios_14 true]);
     ("devices",
      Py.JObj [(ios_13, Py.JArr [device_entry "DEF" "iPhone 8" false "Creating"]);
               (ios_14, Py.JArr [device_entry "ABC" "iPhone 11" true "Booted"])])].

(** The payload of the listing scoped to one device: no [runtimes]. *)
Definition scoped_listing_text : string :=
  "{" ++ quoted "devices" ++ ": {" ++ quoted ios_14 ++ ": [{"
  ++ quoted "udid" ++ ": " ++ quoted "DEF" ++ ", "
  ++ quoted "name" ++ ": " ++ quoted "iPhone 8" ++ ", "
  ++ quoted "isAvailable" ++ ": true, "
  ++ quoted "state" ++ ": " ++ quoted "Creating" ++ "}, {"
  ++ quoted "udid" ++ ": " ++ quoted "ABC" ++ ", "
  ++ quoted "name" ++ ": " ++ quoted "iPhone 11" ++ ", "
  ++ quoted "isAvailable" ++ ": true, "
  ++ quoted "state" ++ ": " ++ quoted "Booted" ++ "}]}}".

Definition scoped_listing : Py.json :=
  Py.JObj
    [("devices",
      Py.JObj [(ios_14, Py.JArr [device_entry "DEF" "iPhone 8" true "Creating";
                                 device_entry "ABC" "iPhone 11" true "Booted"])])].

(** A runtime whose identifier has no entry in the [devices] map. *)
Definition listing_orphan_text : string :=
  "{" ++ quoted "runtimes" ++ ": [{" ++ quoted "name" ++ ": " ++ quoted "iOS 14.0"
  ++ ", " ++ quoted "identifier" ++ ": " ++ quoted ios_14
  ++ ", " ++ quoted "isAvailable" ++ ": true}], "
  ++ quoted "devices" ++ ": {}}".

Definition listing_orphan : Py.json :=
  Py.JObj
    [("runtimes", Py.JArr [runtime_entry "iOS 14.0" ios_14 true]);
     ("devices", Py.JObj [])].

(** A scoped payload with entries that are not device objects after the
    device that is looked for. *)
Definition scoped_ragged_text : string :=
  "{" ++ quoted "devices" ++ ": {" ++ quoted ios_14 ++ ": [{"
  ++ quoted "udid" ++ ": " ++ quoted "DEF" ++ ", "
  ++ quoted "name" ++ ": " ++ quoted "iPhone 8" ++ ", "
  ++ quoted "isAvailable" ++ ": true, "
  ++ quoted "state" ++ ": " ++ quoted "Creating" ++ "}, {"
  ++ quoted "udid" ++ ": " ++ quoted "ABC" ++ ", "
  ++ quoted "name" ++ ": " ++ quoted "iPhone 11" ++ ", "
  ++ quoted "isAvailable" ++ ": true, "
  ++ quoted "state" ++ ": " ++ quoted "Booted" ++ "}, 5], "
  ++ quoted ios_13 ++ ": null}}".

Definition scoped_ragged : Py.json :=
  Py.JObj
    [("devices",
      Py.JObj [(ios_14, Py.JArr [device_entry "DEF" "iPhone 8" true "Creating";
                                 device_entry "ABC" "iPhone 11" true "Booted";
                                 Py.JNum 5]);
               (ios_13, Py.JNull)])].

(** A payload whose [devices] map has an entry that is not a device
    list, under an identifier that no runtime carries. *)
Definition listing_stray_text : string :=
  "{" ++ quoted "runtimes" ++ ": [{" ++ quoted "name" ++ ": " ++ quoted "iOS 14.0"
  ++ ", " ++ quoted "identifier" ++ ": " ++ quoted ios_14
  ++ ", " ++ quoted "isAvailable" ++ ": true}], "
  ++ quoted "devices" ++ ": {" ++ quoted ios_13 ++ ": 7, "
  ++ quoted ios_14 ++ ": [{"
  ++ quoted "udid" ++ ": " ++ quoted "ABC" ++ ", "
  ++ quoted "name" ++ ": " ++ quoted "iPhone 11" ++ ", "
  ++ quoted "isAvailable" ++ ": true, "
  ++ quoted "state" ++ ": " ++ quoted "Booted" ++ "}]}}".

Definition listing_stray : Py.json :=
  Py.JObj
    [("runtimes", Py.JArr [runtime_entry "iOS 14.0" ios_14 true]);
     ("devices",
      Py.JObj [(ios_13, Py.JNum 7);
               (ios_14, Py.JArr [device_entry "ABC" "iPhone 11" true "Booted"])])].

(** A decoder that knows one text. *)
Definition decodes (document : string) (value : Py.json) (s : string)
    : result Py.json :=
  if String.eqb s document then Return value else Raise JSONDecodeError.

(** * briefcase.platforms.macOS.dmg: building a disk image

    A shallow embedding of [macOSDmgMixin.distribution_path],
    [macOSDmgMixin.verify_tools] and [macOSDmgBuildCommand.build_app] of
    [src/briefcase/platforms/macOS/dmg.py].

    What the command inherits or receives is a variable of the section:
    the type of paths with the operator [/], [exists()] and [str()], the
    directories [base_path] and [platform_path], the method
    [bundle_path], the inherited [verify_tools] and the function
    [dmgbuild.build_dmg]. *)

(** The value of an attribute that names a file: a string, or [None]. *)
Inductive attribute : Type :=
  | PyNone
  | PyStr (s : string).

(** What [str.format] substitutes for the attribute. *)
Definition format_attribute (v : attribute) : string :=
  match v with
  | PyNone => "None"
  | PyStr s => s
  end.

(** The application configuration: [name], [formal_name] and [version]
    are always set; the three attributes that name files may be absent,
    and reading an absent attribute raises [AttributeError]. *)
Record BaseConfig : Type := {
  app_name : string;
  app_formal_name : string;
  app_version : string;
  app_icon : option attribute;
  app_installer_icon : option attribute;
  app_installer_background : option attribute
}.

Definition getattr (a : option attribute) : result attribute :=
  match a with
  | Some v => Return v
  | None => Raise AttributeError
  end.

(** The values stored in [dmg_settings]. *)
Inductive setting (path : Type) : Type :=
  | Files (files : list string)
  | Symlinks (links : Py.dict string string)
  | IconLocations (locations : Py.dict string (Z * Z))
  | Location (file : path).
Arguments Files {path} files.
Arguments Symlinks {path} links.
Arguments IconLocations {path} locations.
Arguments Location {path} file.

Definition only_on_macOS : string :=
  Py.LF ++ "A macOS DMG can only be created on macOS." ++ Py.LF.

Section macOSDmg.

Variable path : Type.
Variables base_path platform_path : path.
Variable bundle_path : BaseConfig -> path.
(** [p / name], [p.exists()] and [str(p)] *)
Variable joinpath : path -> string -> path.
Variable path_exists : path -> bool.
Variable path_str : path -> string.
(** [super().verify_tools()] and [self.dmgbuild.build_dmg] *)
Variable super_verify_tools : result unit.
Variable build_dmg : path -> string -> Py.dict string (setting path) -> result unit.

(** Lines 23-24. *)
Definition distribution_path (app : BaseConfig) : path :=
  joinpath platform_path (app_formal_name app ++ "-" ++ app_version app ++ ".dmg").

(** Lines 26-31; [dmgbuild_imported] tells whether the import of
    [dmgbuild] at the top of the module succeeded. *)
Definition verify_tools (dmgbuild_imported : bool) : result unit :=
  _ ← super_verify_tools;
  if dmgbuild_imported then mret tt
  else Raise (BriefcaseCommandError only_on_macOS).

(** Lines 78-86: the body of the first [try]. *)
Definition installer_icon_file (app : BaseConfig) : io path :=
  icon ← lift (getattr (app_installer_icon app));
  let icon_filename := joinpath base_path (format_attribute icon ++ ".icns") in
  if negb (path_exists icon_filename) then
    print ("Can't find " ++ format_attribute icon ++ ".icns for DMG installer icon");;
    raise AttributeError
  else mret icon_filename.

(** Lines 89-97: the body of the second [try]. *)
Definition fallback_icon_file (app : BaseConfig) : io path :=
  icon ← lift (getattr (app_icon app));
  let icon_filename := joinpath base_path (format_attribute icon ++ ".icns") in
  if negb (path_exists icon_filename) then
    print ("Can't find " ++ format_attribute icon
           ++ ".icns for fallback DMG installer icon");;
    raise AttributeError
  else mret icon_filename.

(** Lines 77-99: the value of [icon_filename] after the nested [try]
    statements, [None] standing for Python's [None]. *)
Definition find_icon (app : BaseConfig) : io (option path) :=
  io_try_except
    (icon_filename ← installer_icon_file app; mret (Some icon_filename))
    (fun e =>
       match e with
       | AttributeError =>
           Some (io_try_except
                   (icon_filename ← fallback_icon_file app;
                    mret (Some icon_filename))
                   (fun e => match e with
                             | AttributeError => Some (mret None)
                             | _ => None
                             end))
       | _ => None
       end).

(** Lines 104-116: the settings after the [try] statement for the
    background image. *)
Definition add_background (app : BaseConfig)
    (dmg_settings : Py.dict string (setting path))
    : io (Py.dict string (setting path)) :=
  io_try_except
    (image ← lift (getattr (app_installer_background app));
     let image_filename := joinpath base_path (format_attribute image ++ ".png") in
     if path_exists image_filename then
       mret (Py.setitem String.eqb "background" (Location image_filename) dmg_settings)
     else
       print ("Can't find " ++ format_attribute image ++ ".png for DMG background");;
       mret dmg_settings)
    (fun e => match e with
              | AttributeError => Some (mret dmg_settings)
              | _ => None
              end).

(** Lines 65-116: what [build_app] prints and the settings it has
    assembled when it reaches the call of [build_dmg]. *)
Definition dmg_settings_of (app : BaseConfig) : io (Py.dict string (setting path)) :=
  print "";;
  print ("[" ++ app_name app ++ "] Building DMG...");;
  let dmg_settings :=
    dict_of String.eqb
      [("files", Files [path_str (bundle_path app)]);
       ("symlinks", Symlinks (dict_of String.eqb [("Applications", "/Applications")]));
       ("icon_locations",
        IconLocations
          (dict_of String.eqb
             [(app_formal_name app ++ ".app", (100, 100));
              ("Applications", (300, 100))]))] in
  icon_filename ← find_icon app;
  let dmg_settings :=
    match icon_filename with
    | Some icon_filename =>
        Py.setitem String.eqb "icon" (Location icon_filename) dmg_settings
    | None => dmg_settings
    end in
  add_background app dmg_settings.

(** Lines 59-122. *)
Definition build_app (app : BaseConfig) : io unit :=
  dmg_settings ← dmg_settings_of app;
  lift (build_dmg (distribution_path app)
          (app_formal_name app ++ " " ++ app_version app)
          dmg_settings).

(** The file named by an attribute, when the attribute is set and the
    file exists; an attribute is dangling when it is set and the file
    does not exist. *)
Definition usable (a : option attribute) (extension : string) : option path :=
  match a with
  | Some v =>
      let file := joinpath base_path (format_attribute v ++ extension) in
      if path_exists file then Some file else None
  | None => None
  end.

Definition dangling (a : option attribute) (extension : string) : bool :=
  match a with
  | Some v => negb (path_exists (joinpath base_path (format_attribute v ++ extension)))
  | None => false
  end.

End macOSDmg.

(** A file system for the examples: paths are strings, [/] joins with a
    slash and the files that exist are listed. *)
Definition slash (p : string) (name : string) : string := p ++ "/" ++ name.
Definition listed (files : list string) (p : string) : bool :=
  existsb (String.eqb p) files.

Definition helloworld : BaseConfig :=
  {| app_name := "helloworld"; app_formal_name := "Hello World";
     app_version := "0.1"; app_icon := Some (PyStr "icons/hello");
     app_installer_icon := Some (PyStr "icons/installer");
     app_installer_background := None |}.

(** * Properties *)

(** ** The result monad *)

Lemma bind_Return {A B} (a : A) (f : A -> result B) : Return a ≫= f = f a.
Proof. reflexivity. Qed.

Lemma bind_Raise {A B} (e : exception) (f : A -> result B) :
  Raise e ≫= f = Raise e.
Proof. reflexivity. Qed.

Lemma io_bind_lift_Return {A B} (a : A) (f : A -> io B) :
  lift (Return a) ≫= f = f a.
Proof.
  unfold mbind, io_bind, lift. cbn [outcome printed]. by destruct (f a).
Qed.

Lemma mret_Return {A} (a : A) : mret a = Return a.
Proof. reflexivity. Qed.

Lemma mapM_nil {A B} (f : A -> result B) : mapM f [] = Return [].
Proof. reflexivity. Qed.

Lemma mapM_cons {A B} (f : A -> result B) x l :
  mapM f (x :: l) = y ← f x; k ← mapM f l; Return (y :: k).
Proof. reflexivity. Qed.

Ltac simpl_result :=
  repeat first
    [ rewrite bind_Return | rewrite bind_Raise | rewrite mret_Return ].

(** ** Strings and tuples *)

Lemma append_empty_r s : s ++ "" = s.
Proof.
  induction s as [|c s IH]; [done|].
  change (String c s ++ "") with (String c (s ++ "")). by rewrite IH.
Qed.

Lemma split_nonempty sep s : Py.split sep s <> [].
Proof. destruct s as [|c s]; simpl; [done|]. by repeat case_match. Qed.

Lemma split_app sep a b :
  has_char sep a = false ->
  exists h t, Py.split sep b = h :: t /\ Py.split sep (a ++ b) = (a ++ h) :: t.
Proof.
  induction a as [|c a IH]; simpl; intros Hc.
  - destruct (Py.split sep b) as [|h t] eqn:E; [by apply split_nonempty in E|].
    by exists h, t.
  - apply orb_false_iff in Hc as [Hc Ha].
    destruct (IH Ha) as (h & t & Hb & Hab).
    exists h, t. by rewrite Hc, Hab.
Qed.

Lemma tuple_lt_spec a b : Py.tuple_lt a b = true <-> lex_lt a b.
Proof.
  revert b. induction a as [|x a IH]; intros [|y b]; simpl.
  - split; [done | inversion 1].
  - split; [constructor | done].
  - split; [done | inversion 1].
  - destruct (Z.eqb_spec x y) as [->|Hne].
    + rewrite IH. split; [by constructor|].
      inversion 1; subst; [lia | done].
    + rewrite Z.ltb_lt. split; [by constructor|].
      inversion 1; subst; [done | congruence].
Qed.

Lemma lex_lt_irrefl a : ~ lex_lt a a.
Proof. induction a; inversion 1; subst; [lia | auto]. Qed.

Lemma lex_lt_asym a b : lex_lt a b -> ~ lex_lt b a.
Proof.
  induction 1; inversion 1; subst; try lia; auto.
Qed.

Lemma lex_total a b : lex_lt a b \/ a = b \/ lex_lt b a.
Proof.
  revert b. induction a as [|x a IH]; intros [|y b].
  - auto.
  - left. constructor.
  - right. right. constructor.
  - destruct (Z.lt_total x y) as [?|[->|?]].
    + left. by constructor.
    + destruct (IH b) as [?|[->|?]];
        [left | right; left | right; right]; try done; by constructor.
    + right. right. by constructor.
Qed.

(** [not (v < m)] is [m <= v]. *)
Lemma tuple_lt_false v m : Py.tuple_lt v m = false <-> lex_le m v.
Proof.
  rewrite <- not_true_iff_false, tuple_lt_spec. unfold lex_le. split.
  - intros Hn. destruct (lex_total v m) as [?|[->|?]]; auto. done.
  - intros [->|H]; [apply lex_lt_irrefl | by apply lex_lt_asym].
Qed.

(** ** The version expression of lines 43-46 *)

Lemma prefix_cons a s1 b s2 :
  String.prefix (String a s1) (String b s2) = true ->
  a = b /\ String.prefix s1 s2 = true.
Proof. cbn [String.prefix]. by destruct (ascii_dec a b). Qed.

Lemma prefix_Xcode output :
  Py.startswith output "Xcode " = true -> exists tail, output = "Xcode " ++ tail.
Proof.
  unfold Py.startswith. intros H.
  do 6 (destruct output as [|? output]; [done|];
        apply prefix_cons in H as [<- H]).
  by exists output.
Qed.

Lemma startswith_app p s : Py.startswith (p ++ s) p = true.
Proof.
  unfold Py.startswith. induction p as [|c p IH]; [by destruct s|].
  change (String c p ++ s) with (String c (p ++ s)).
  cbn [String.prefix]. by destruct (ascii_dec c c).
Qed.

(** The subscripts [[0]] and [[1]] are in range for an output that starts
    with ['Xcode ']: the pieces are those of the text between the first
    space and the next space or line feed. *)
Lemma version_pieces_tail tail :
  exists h t w ws,
    Py.split (ascii_of_nat 10) tail = h :: t /\
    Py.split " " h = w :: ws /\
    version_pieces ("Xcode " ++ tail) = Return (Py.split "." w).
Proof.
  destruct (split_app (ascii_of_nat 10) "Xcode " tail eq_refl)
    as (h & t & Ht & Hl).
  destruct (Py.split " " h) as [|w ws] eqn:Hw; [by apply split_nonempty in Hw|].
  exists h, t, w, ws. repeat split; try done.
  unfold version_pieces. rewrite Hl.
  change (Py.index (("Xcode " ++ h) :: t) 0) with (Return ("Xcode " ++ h)).
  rewrite bind_Return.
  change (Py.split " " ("Xcode " ++ h)) with ("Xcode" :: Py.split " " h).
  by rewrite Hw.
Qed.

Lemma version_pieces_no_IndexError output :
  Py.startswith output "Xcode " = true -> version_pieces output <> Raise IndexError.
Proof.
  intros [tail ->]%prefix_Xcode.
  by destruct (version_pieces_tail tail) as (?&?&?&?&_&_&->).
Qed.

Lemma split_head_ends_word rest h t :
  ends_word rest = true -> Py.split (ascii_of_nat 10) rest = h :: t ->
  h = EmptyString \/ exists h', h = String " " h'.
Proof.
  destruct rest as [|c rest]; simpl; intros Hc Hs.
  - left. congruence.
  - destruct (Ascii.eqb c (ascii_of_nat 10)) eqn:E.
    + left. congruence.
    + rewrite orb_false_r in Hc. apply Ascii.eqb_eq in Hc as ->.
      right. destruct (Py.split _ rest); simplify_eq; eauto.
Qed.

(** For an output of the shape ['Xcode <word><rest>'] the pieces are those
    of the word. *)
Lemma version_pieces_word word rest :
  is_word word = true -> ends_word rest = true ->
  version_pieces ("Xcode " ++ word ++ rest) = Return (Py.split "." word).
Proof.
  intros [Hsp Hlf]%andb_true_iff Hrest.
  apply negb_true_iff in Hsp, Hlf.
  destruct (version_pieces_tail (word ++ rest)) as (h & t & w & ws & Hh & Hw & ->).
  destruct (split_app (ascii_of_nat 10) word rest Hlf) as (h1 & t1 & Hr & Hwr).
  rewrite Hwr in Hh. simplify_eq.
  destruct (split_app " " word h1 Hsp) as (h0 & t0 & Hh1 & Hwh).
  rewrite Hwh in Hw. simplify_eq.
  assert (h0 = EmptyString) as ->.
  { destruct (split_head_ends_word _ _ _ Hrest Hr) as [->|[h' ->]];
      simpl in Hh1; congruence. }
  by rewrite append_empty_r.
Qed.

Section EnsureXcodeProperties.

Variable int : string -> option Z.

Lemma mapM_int_Return pieces parsed :
  mapM (int_ int) pieces = Return parsed <->
  Forall2 (fun p n => int p = Some n) pieces parsed.
Proof.
  revert parsed. induction pieces as [|p pieces IH]; intros parsed.
  - rewrite mapM_nil. split; [intros [= <-]; constructor | by inversion 1].
  - rewrite mapM_cons.
    destruct (mapM (int_ int) pieces) as [k|e] eqn:Hk;
      unfold int_; destruct (int p) as [n|] eqn:Hp; simpl_result.
    + split.
      * intros [= <-]. constructor; [done | by apply IH].
      * inversion 1 as [|? m ? k' Hn Hk']; subst.
        apply IH in Hk'. congruence.
    + split; [done|]. inversion 1; congruence.
    + split; [done|]. inversion 1 as [|? m ? k' Hn Hk']; subst.
      by apply IH in Hk'.
    + split; [done|]. inversion 1; congruence.
Qed.

Lemma mapM_int_Raise pieces e :
  mapM (int_ int) pieces = Raise e <->
  e = ValueError /\ Exists (fun p => int p = None) pieces.
Proof.
  induction pieces as [|p pieces IH].
  - rewrite mapM_nil. split; [done | intros [_ H]; inversion H].
  - rewrite mapM_cons.
    destruct (mapM (int_ int) pieces) as [k|e'] eqn:Hk;
      unfold int_; destruct (int p) as [n|] eqn:Hp; simpl_result.
    + split; [done|]. intros [-> H].
      inversion H as [? ? Hh|? ? Ht]; subst; [congruence|].
      destruct IH as [_ IH]. by specialize (IH (conj eq_refl Ht)).
    + split; [intros [= <-]; split; [done | by left] | by intros [-> _]].
    + split.
      * intros Heq. apply IH in Heq as [-> H]. by split; [|right].
      * intros [-> H]. apply IH. split; [done|].
        inversion H as [? ? Hh|? ? Ht]; subst; [congruence | done].
    + split; [intros [= <-]; split; [done | by left] | by intros [-> _]].
Qed.

(** What the function does once the version command has produced
    [output], case by case. *)
Lemma ensure_Return min_version sub output :
  sub xcodebuild_version = Return output ->
  ensure_xcode_is_installed int min_version sub =
  match min_version with
  | None => IO [] (Return tt)
  | Some m =>
      if Py.startswith output "Xcode " then
        match installed_version int output with
        | Return v =>
            if Py.tuple_lt v m
            then IO [] (Raise (BriefcaseCommandError (version_too_low m v)))
            else IO [] (Return tt)
        | Raise IndexError => IO [version_warning] (Return tt)
        | Raise CalledProcessError =>
            IO [] (Raise (BriefcaseCommandError xcode_not_installed))
        | Raise e => IO [] (Raise e)
        end
      else IO [version_warning] (Return tt)
  end.
Proof.
  intros Hsub. unfold ensure_xcode_is_installed, xcodebuild_version in *.
  rewrite Hsub, io_bind_lift_Return.
  destruct min_version as [m|]; [|reflexivity].
  destruct (Py.startswith output "Xcode "); [|reflexivity].
  destruct (installed_version int output) as [v|e]; [|destruct e; reflexivity].
  rewrite io_bind_lift_Return. destruct (Py.tuple_lt v m); reflexivity.
Qed.

(** What the function does when the version command itself raises. *)
Lemma ensure_Raise min_version sub e :
  sub xcodebuild_version = Raise e ->
  ensure_xcode_is_installed int min_version sub =
  match e with
  | CalledProcessError => IO [] (Raise (BriefcaseCommandError xcode_not_installed))
  | _ => IO [] (Raise e)
  end.
Proof.
  intros Hsub. unfold ensure_xcode_is_installed, xcodebuild_version in *.
  rewrite Hsub. destruct e; reflexivity.
Qed.

Lemma installed_version_word word rest :
  is_word word = true -> ends_word rest = true ->
  installed_version int ("Xcode " ++ word ++ rest) =
  parsed ← mapM (int_ int) (Py.split "." word); mret (parsed ++ [0; 0])%list.
Proof.
  intros Hw Hr. unfold installed_version.
  by rewrite (version_pieces_word _ _ Hw Hr).
Qed.

(** With an output that starts with ['Xcode '], the version expression
    returns a tuple or raises [ValueError]; [IndexError], the one
    exception the [try] statement around it handles, cannot arise. *)
Lemma installed_version_outcome output :
  Py.startswith output "Xcode " = true ->
  (exists pieces parsed,
      version_pieces output = Return pieces /\
      Forall2 (fun p n => int p = Some n) pieces parsed /\
      installed_version int output = Return (parsed ++ [0; 0])%list) \/
  (exists pieces,
      version_pieces output = Return pieces /\
      Exists (fun p => int p = None) pieces /\
      installed_version int output = Raise ValueError).
Proof.
  intros [tail ->]%prefix_Xcode.
  destruct (version_pieces_tail tail) as (h & t & w & ws & _ & _ & Hp).
  unfold installed_version. rewrite Hp, bind_Return.
  destruct (mapM (int_ int) (Py.split "." w)) as [parsed|e] eqn:Hm.
  - left. exists (Py.split "." w), parsed. by apply mapM_int_Return in Hm.
  - right. exists (Py.split "." w). by apply mapM_int_Raise in Hm as [-> ?].
Qed.

(** A piece that [int] rejects makes the function raise [ValueError],
    without a warning. *)
Lemma ensure_ValueError m sub output pieces :
  sub xcodebuild_version = Return output ->
  Py.startswith output "Xcode " = true ->
  version_pieces output = Return pieces ->
  Exists (fun p => int p = None) pieces ->
  ensure_xcode_is_installed int (Some m) sub = IO [] (Raise ValueError).
Proof.
  intros Hsub Hx Hp Hbad. rewrite (ensure_Return _ _ _ Hsub), Hx.
  destruct (installed_version_outcome _ Hx)
    as [(ps & parsed & Hp' & Hall & _)|(ps & _ & _ & ->)]; [|done].
  rewrite Hp in Hp'. simplify_eq. exfalso. clear Hp.
  induction Hall as [|p n ps parsed Hn _ IH];
    inversion Hbad; subst; [congruence | auto].
Qed.

(** An output that does not start with ['Xcode '] gives the warning and
    a normal return. *)
Lemma ensure_other_prefix m sub output :
  sub xcodebuild_version = Return output ->
  Py.startswith output "Xcode " = false ->
  ensure_xcode_is_installed int (Some m) sub = IO [version_warning] (Return tt).
Proof. intros Hsub Hx. by rewrite (ensure_Return _ _ _ Hsub), Hx. Qed.

End EnsureXcodeProperties.

(** ** Properties of ensure_xcode_is_installed *)

(** C8.  Without a minimum version ([min_version] is [None]) the check
    succeeds as soon as the version command exits with status zero: the
    result is the same normal return, with nothing printed, for every
    output string and whatever [int] would make of it. *)
Theorem ensure_without_minimum int sub output :
  sub xcodebuild_version = Return output ->
  ensure_xcode_is_installed int None sub = IO [] (Return tt).
Proof. intros Hsub. by rewrite (ensure_Return int None sub output Hsub). Qed.

Lemma ensure_without_minimum_witness :
  always (Return "no version here") xcodebuild_version = Return "no version here" /\
  ensure_xcode_is_installed Py.int_of_str None (always (Return "no version here"))
  = IO [] (Return tt).
Proof.
  split; [reflexivity|].
  apply (ensure_without_minimum Py.int_of_str _ "no version here").
  reflexivity.
Defined.

(** C3.  With a minimum version [m] and an output of the shape
    ['Xcode <dotted-version>'] whose pieces between the dots all convert
    to integers, the installed version [v] is the tuple of these integers
    followed by two zero components, and the check succeeds exactly when
    [m <= v] in the lexicographic order; when [v < m] it raises the
    error that reports both versions. *)
Theorem ensure_minimum_version int m sub word rest parsed :
  sub xcodebuild_version = Return ("Xcode " ++ word ++ rest) ->
  is_word word = true ->
  ends_word rest = true ->
  Forall2 (fun p n => int p = Some n) (Py.split "." word) parsed ->
  let v := (parsed ++ [0; 0])%list in
  installed_version int ("Xcode " ++ word ++ rest) = Return v /\
  (outcome (ensure_xcode_is_installed int (Some m) sub) = Return tt <-> lex_le m v) /\
  (lex_le m v -> ensure_xcode_is_installed int (Some m) sub = IO [] (Return tt)) /\
  (lex_lt v m ->
   ensure_xcode_is_installed int (Some m) sub =
   IO [] (Raise (BriefcaseCommandError (version_too_low m v)))).
Proof.
  intros Hsub Hword Hrest Hparsed v.
  assert (Hv : installed_version int ("Xcode " ++ word ++ rest) = Return v).
  { rewrite (installed_version_word int _ _ Hword Hrest).
    apply mapM_int_Return in Hparsed. by rewrite Hparsed. }
  rewrite (ensure_Return int _ _ _ Hsub), startswith_app, Hv.
  split; [done|].
  destruct (Py.tuple_lt v m) eqn:Hlt.
  - apply tuple_lt_spec in Hlt as Hlt'.
    assert (~ lex_le m v) as Hn.
    { intros Hle. apply tuple_lt_false in Hle. congruence. }
    repeat split; try done.
  - apply tuple_lt_false in Hlt as Hle.
    repeat split; try done.
    intros Hlt'. apply tuple_lt_spec in Hlt'. congruence.
Qed.

Lemma ensure_minimum_version_witness :
  installed_version Py.int_of_str "Xcode 9" = Return [9; 0; 0] /\
  ensure_xcode_is_installed Py.int_of_str (Some [9; 0; 1]) (always (Return "Xcode 9"))
  = IO [] (Raise (BriefcaseCommandError
                    "Xcode 9.0.1 is required; 9.0.0 is installed. Please update Xcode.")).
Proof.
  destruct (ensure_minimum_version Py.int_of_str [9; 0; 1]
              (always (Return "Xcode 9")) "9" "" [9])
    as (Hv & _ & _ & Hlow).
  - reflexivity.
  - reflexivity.
  - reflexivity.
  - repeat constructor.
  - split; [exact Hv|]. apply Hlow. do 2 apply lex_lt_tail. apply lex_lt_head. lia.
Defined.

(** C10.  When the version command has produced an output and the check
    raises a [BriefcaseCommandError], the message is that of a version
    that is too low: the installed version it quotes is the dot-join of
    the converted pieces followed by the two appended zeros.  For the
    output ['Xcode 11.2.1'] and the minimum [(11, 3)] the message reports
    [11.2.1.0.0] as installed. *)
Theorem version_too_low_message :
  (forall int min_version sub output msg,
      sub xcodebuild_version = Return output ->
      outcome (ensure_xcode_is_installed int min_version sub)
      = Raise (BriefcaseCommandError msg) ->
      exists m pieces parsed,
        min_version = Some m /\
        version_pieces output = Return pieces /\
        Forall2 (fun p n => int p = Some n) pieces parsed /\
        lex_lt (parsed ++ [0; 0])%list m /\
        msg = "Xcode " ++ Py.join "." (map Py.str m) ++ " is required; "
              ++ Py.join "." (map Py.str (parsed ++ [0; 0])%list)
              ++ " is installed. Please update Xcode.") /\
  ensure_xcode_is_installed Py.int_of_str (Some [11; 3])
    (always (Return "Xcode 11.2.1"))
  = IO [] (Raise (BriefcaseCommandError
      "Xcode 11.3 is required; 11.2.1.0.0 is installed. Please update Xcode.")).
Proof.
  split; [|by vm_compute].
  intros int min_version sub output msg Hsub.
  rewrite (ensure_Return int _ _ _ Hsub).
  destruct min_version as [m|]; [|done].
  destruct (Py.startswith output "Xcode ") eqn:Hx; [|done].
  destruct (installed_version_outcome int _ Hx)
    as [(pieces & parsed & Hp & Hall & ->)|(pieces & _ & _ & ->)]; [|done].
  destruct (Py.tuple_lt _ m) eqn:Hlt; [|done].
  intros [= <-]. exists m, pieces, parsed.
  by apply tuple_lt_spec in Hlt.
Qed.

Lemma version_too_low_message_witness :
  exists m pieces parsed,
    Some [11; 3] = Some m /\
    version_pieces "Xcode 11.2.1" = Return pieces /\
    Forall2 (fun p n => Py.int_of_str p = Some n) pieces parsed /\
    lex_lt (parsed ++ [0; 0])%list m /\
    "Xcode 11.3 is required; 11.2.1.0.0 is installed. Please update Xcode."
    = "Xcode " ++ Py.join "." (map Py.str m) ++ " is required; "
      ++ Py.join "." (map Py.str (parsed ++ [0; 0])%list)
      ++ " is installed. Please update Xcode.".
Proof.
  apply (proj1 version_too_low_message Py.int_of_str (Some [11; 3])
           (always (Return "Xcode 11.2.1")) "Xcode 11.2.1").
  - reflexivity.
  - vm_compute. reflexivity.
Defined.

(** C2, as amended.  When the version command exits with a non-zero
    status ([check_output] raises [CalledProcessError]) the check raises
    the [BriefcaseCommandError] that says Xcode is not installed,
    whatever the minimum version, and nothing is parsed.  Any other
    exception raised by the call, such as the one raised when the
    command cannot be launched, is not handled and reaches the caller
    unchanged. *)
Theorem ensure_command_failure int min_version sub :
  (sub xcodebuild_version = Raise CalledProcessError ->
   ensure_xcode_is_installed int min_version sub =
   IO [] (Raise (BriefcaseCommandError xcode_not_installed))) /\
  (forall e, e <> CalledProcessError ->
             sub xcodebuild_version = Raise e ->
             ensure_xcode_is_installed int min_version sub = IO [] (Raise e)).
Proof.
  split.
  - intros Hsub. by rewrite (ensure_Raise int _ _ _ Hsub).
  - intros e Hne Hsub. rewrite (ensure_Raise int _ _ _ Hsub). by destruct e.
Qed.

Lemma ensure_command_failure_witness :
  ensure_xcode_is_installed Py.int_of_str (Some [11; 3])
    (always (Raise CalledProcessError))
  = IO [] (Raise (BriefcaseCommandError xcode_not_installed)).
Proof.
  apply (proj1 (ensure_command_failure Py.int_of_str (Some [11; 3])
                  (always (Raise CalledProcessError)))).
  reflexivity.
Defined.

(** C2, as stated, fails: when the command cannot be launched the call
    raises [FileNotFoundError], which the function does not turn into
    the error that says Xcode is not installed. *)
Lemma ensure_command_not_found :
  ensure_xcode_is_installed Py.int_of_str (Some [11; 3])
    (always (Raise FileNotFoundError))
  = IO [] (Raise FileNotFoundError) /\
  outcome (ensure_xcode_is_installed Py.int_of_str (Some [11; 3])
             (always (Raise FileNotFoundError)))
  <> Raise (BriefcaseCommandError xcode_not_installed).
Proof. split; [reflexivity | discriminate]. Qed.

(** C1.  The output ['Xcode 11.2.1-beta'] starts with the expected
    prefix and its last piece is not an integer: with the minimum version
    [(11, 3)] the function raises [ValueError] and prints no warning. *)
Theorem ensure_non_numeric_version :
  ensure_xcode_is_installed Py.int_of_str (Some [11; 3])
    (always (Return "Xcode 11.2.1-beta"))
  = IO [] (Raise ValueError).
Proof. reflexivity. Qed.

(** ** Dictionaries *)

Lemma dict_comprehension_filter_map {A K V}
    (set : K -> V -> Py.dict K V -> result (Py.dict K V))
    (eqb : K -> K -> bool) (body : A -> result (option (K * V)))
    (keep : A -> bool) (item : A -> K * V) xs acc :
  (forall x, In x xs ->
             body x = Return (if keep x then Some (item x) else None)) ->
  (forall x d, In x xs -> keep x = true ->
               set (fst (item x)) (snd (item x)) d
               = Return (Py.setitem eqb (fst (item x)) (snd (item x)) d)) ->
  Py.dict_comprehension set body xs acc =
  Return (fold_left (fun d (it : K * V) => Py.setitem eqb (fst it) (snd it) d)
                    (map item (List.filter keep xs)) acc).
Proof.
  revert acc. induction xs as [|x xs IH]; intros acc Hbody Hset; [reflexivity|].
  cbn [Py.dict_comprehension List.filter].
  rewrite (Hbody x) by (by left). simpl_result.
  destruct (keep x) eqn:Hk.
  - pose proof (Hset x acc (or_introl eq_refl) Hk) as Hx.
    destruct (item x) as [k v] eqn:Hi. cbn [fst snd] in Hx.
    rewrite Hx. simpl_result.
    cbn [map fold_left]. rewrite Hi. cbn [fst snd].
    apply IH; intros; [apply Hbody | apply Hset]; auto with datatypes.
  - simpl_result. apply IH; intros; [apply Hbody | apply Hset]; auto with datatypes.
Qed.

Lemma dict_comprehension_skip {A K V}
    (set : K -> V -> Py.dict K V -> result (Py.dict K V))
    (body : A -> result (option (K * V))) xs acc :
  Forall (fun x => body x = Return None) xs ->
  Py.dict_comprehension set body xs acc = Return acc.
Proof.
  induction 1 as [|x xs Hx _ IH]; [reflexivity|].
  cbn [Py.dict_comprehension]. rewrite Hx. by simpl_result.
Qed.

(** ** The listing commands *)

Section SimctlProperties.

Variable json_loads : string -> result Py.json.

Lemma get_simulators_decoded os_name sub output simctl_data :
  sub simctl_list = Return output ->
  json_loads output = Return simctl_data ->
  get_simulators json_loads os_name sub =
  try_except
    (os_versions ← os_versions_of os_name simctl_data;
     simulators_of simctl_data os_versions)
    (fun e => match e with
              | CalledProcessError => Some (Raise simctl_failed)
              | _ => None
              end).
Proof.
  intros Hsub Hloads. unfold get_simulators. rewrite Hsub. simpl_result.
  rewrite Hloads. simpl_result. f_equal.
  destruct (os_versions_of os_name simctl_data) as [osv|]; [|done].
  simpl_result. by destruct (simulators_of simctl_data osv).
Qed.

Lemma get_device_state_decoded udid sub output simctl_data :
  sub (simctl_list_devices udid) = Return output ->
  json_loads output = Return simctl_data ->
  get_device_state json_loads udid sub =
  try_except
    (devices ← simctl_data.["devices"];
     groups ← Py.items devices;
     found ← find_in_runtimes udid groups;
     match found with
     | Some state => Return state
     | None => Raise (device_not_found udid)
     end)
    (fun e => match e with
              | CalledProcessError => Some (Raise simctl_failed)
              | _ => None
              end).
Proof.
  intros Hsub Hloads. unfold get_device_state. rewrite Hsub. simpl_result.
  rewrite Hloads. by simpl_result.
Qed.

End SimctlProperties.

(** C6.  When the listing command exits with a non-zero status
    ([check_output] raises [CalledProcessError]), [get_simulators] and
    [get_device_state] both raise the [BriefcaseCommandError] with the
    message ['Unable to run xcrun simctl.']. *)
Theorem simctl_command_failure json_loads os_name udid sub :
  simctl_failed = BriefcaseCommandError "Unable to run xcrun simctl." /\
  (sub simctl_list = Raise CalledProcessError ->
   get_simulators json_loads os_name sub = Raise simctl_failed) /\
  (sub (simctl_list_devices udid) = Raise CalledProcessError ->
   get_device_state json_loads udid sub = Raise simctl_failed).
Proof.
  split; [done|]. split; intros Hsub.
  - unfold get_simulators. by rewrite Hsub.
  - unfold get_device_state. by rewrite Hsub.
Qed.

Lemma simctl_command_failure_witness :
  get_simulators (fun _ => Raise JSONDecodeError) "iOS"
    (always (Raise CalledProcessError))
  = Raise (BriefcaseCommandError "Unable to run xcrun simctl.") /\
  get_device_state (fun _ => Raise JSONDecodeError) "ABC"
    (always (Raise CalledProcessError))
  = Raise (BriefcaseCommandError "Unable to run xcrun simctl.").
Proof.
  destruct (simctl_command_failure (fun _ => Raise JSONDecodeError) "iOS" "ABC"
              (always (Raise CalledProcessError))) as (_ & Hs & Hd).
  split; [apply Hs | apply Hd]; reflexivity.
Defined.

(** ** Runtime entries *)

Lemma is_runtime_fields runtime :
  is_runtime runtime = true ->
  runtime.["name"] = Return (Py.JStr (runtime_name runtime)) /\
  runtime.["identifier"] = Return (Py.JStr (runtime_identifier runtime)) /\
  runtime.["isAvailable"] = Return (Py.JBool (is_available runtime)).
Proof.
  unfold is_runtime, runtime_name, runtime_identifier, is_available, field.
  destruct (runtime.["name"]) as [[]|]; try done.
  destruct (runtime.["identifier"]) as [[]|]; try done.
  by destruct (runtime.["isAvailable"]) as [[]|].
Qed.

Lemma startswith_has_space name os_name :
  Py.startswith name (os_name ++ " ") = true -> has_char " " name = true.
Proof.
  unfold Py.startswith. revert name.
  induction os_name as [|c os_name IH]; intros [|d name] H; try done.
  - apply prefix_cons in H as [<- _]. done.
  - change (String c os_name ++ " ") with (String c (os_name ++ " ")) in H.
    apply prefix_cons in H as [_ H]. cbn [has_char].
    rewrite (IH _ H). apply orb_true_r.
Qed.

Lemma split1_after_first_space name :
  has_char " " name = true ->
  Py.index (Py.split1 " " name) 1 = Return (after_first_space name).
Proof.
  induction name as [|c name IH]; [done|]. cbn [has_char Py.split1 after_first_space].
  destruct (Ascii.eqb c " "); [done|]. intros H%IH.
  destruct (Py.split1 " " name) as [|w [|w' ws]]; try done.
Qed.

Lemma os_versions_item_runtime os_name runtime :
  is_runtime runtime = true ->
  os_versions_item os_name runtime =
  Return (if retained os_name runtime
          then Some (os_version runtime, field "identifier" runtime)
          else None).
Proof.
  intros Hrt. destruct (is_runtime_fields _ Hrt) as (Hn & Hi & Ha).
  unfold os_versions_item, retained, os_version, field.
  rewrite Hn, Hi. simpl_result. cbn [Py.startswith_ Py.split1_]. simpl_result.
  destruct (Py.startswith _ _) eqn:Hs; simpl_result; [|done].
  rewrite Ha. simpl_result. cbn [Py.truthy andb].
  destruct (is_available runtime); simpl_result; [|done].
  rewrite (split1_after_first_space _ (startswith_has_space _ _ Hs)).
  by simpl_result.
Qed.

(** A runtime whose name does not start with ['<os_name> '] is skipped
    before any other of its fields is read. *)
Lemma os_versions_item_other os_name runtime name :
  runtime.["name"] = Return (Py.JStr name) ->
  Py.startswith name (os_name ++ " ") = false ->
  os_versions_item os_name runtime = Return None.
Proof.
  intros Hn Hs. unfold os_versions_item. rewrite Hn. simpl_result.
  cbn [Py.startswith_]. simpl_result. rewrite Hs. by simpl_result.
Qed.

(** C7.  When no runtime of the payload has a name that starts with
    ['<os_name> '], [get_simulators] returns the empty mapping and does
    not raise; nothing but the names of the runtimes is read. *)
Theorem get_simulators_no_runtime json_loads os_name sub output simctl_data runtimes :
  sub simctl_list = Return output ->
  json_loads output = Return simctl_data ->
  simctl_data.["runtimes"] = Return (Py.JArr runtimes) ->
  Forall (fun runtime =>
            exists name, runtime.["name"] = Return (Py.JStr name) /\
                         Py.startswith name (os_name ++ " ") = false)
         runtimes ->
  get_simulators json_loads os_name sub = Return [].
Proof.
  intros Hsub Hloads Hrts Hnone.
  rewrite (get_simulators_decoded _ _ _ _ _ Hsub Hloads).
  unfold os_versions_of. rewrite Hrts. simpl_result.
  cbn [Py.iter]. simpl_result.
  rewrite dict_comprehension_skip; [done|].
  eapply Forall_impl; [exact Hnone|].
  intros rt (name & Hn & Hs). by eapply os_versions_item_other.
Qed.

(** ** Device entries and get_device_state *)

Lemma is_device_fields device :
  is_device device = true ->
  device.["udid"] = Return (Py.JStr (device_udid device)) /\
  device.["name"] = Return (Py.JStr (device_name device)) /\
  device.["isAvailable"] = Return (Py.JBool (is_available device)) /\
  device.["state"] = Return (Py.JStr (device_state_label device)).
Proof.
  unfold is_device, device_udid, device_name, is_available, device_state_label, field.
  destruct (device.["udid"]) as [[]|]; try done.
  destruct (device.["name"]) as [[]|]; try done.
  destruct (device.["isAvailable"]) as [[]|]; try done.
  by destruct (device.["state"]) as [[]|].
Qed.

(** The dictionary literal of the source is the table of the
    specification. *)
Lemma state_table_get_label label :
  state_table_get (Py.JStr label) = Return (expected_state label).
Proof.
  unfold state_table_get, expected_state, state_table. cbn [Py.get].
  rewrite !(String.eqb_sym _ label).
  by repeat destruct (String.eqb label _).
Qed.

Lemma find_in_devices_spec udid devices :
  forallb is_device devices = true ->
  find_in_devices udid devices =
  Return (option_map (fun d => expected_state (device_state_label d))
            (List.find (fun d => String.eqb (device_udid d) udid) devices)).
Proof.
  induction devices as [|d devices IH]; [done|].
  cbn [forallb]. intros [Hd Hds]%andb_true_iff.
  destruct (is_device_fields _ Hd) as (Hu & _ & _ & Hs).
  cbn [find_in_devices List.find]. rewrite Hu. simpl_result.
  cbn [Py.eq_str]. destruct (String.eqb (device_udid d) udid).
  - rewrite Hs. simpl_result. rewrite state_table_get_label. by simpl_result.
  - by apply IH.
Qed.

Lemma find_app {A} (p : A -> bool) l1 l2 :
  List.find p (l1 ++ l2)%list =
  match List.find p l1 with
  | Some x => Some x
  | None => List.find p l2
  end.
Proof.
  induction l1 as [|x l1 IH]; [done|]. cbn [List.find app].
  change ((x :: l1) ++ l2)%list with (x :: (l1 ++ l2))%list.
  cbn [List.find]. by destruct (p x).
Qed.

Lemma find_in_runtimes_spec udid groups :
  forallb (fun group : string * Py.json => is_device_list (snd group)) groups = true ->
  find_in_runtimes udid groups =
  Return (option_map (fun d => expected_state (device_state_label d))
            (List.find (fun d => String.eqb (device_udid d) udid)
               (concat (map (fun group : string * Py.json =>
                               match snd group with
                               | Py.JArr devices => devices
                               | _ => []
                               end) groups)))).
Proof.
  induction groups as [|[runtime v] groups IH]; [done|].
  cbn [forallb snd]. intros [Hv Hgs]%andb_true_iff.
  destruct v as [| | | |devices|]; try done. cbn [is_device_list] in Hv.
  cbn [find_in_runtimes Py.iter map concat snd]. simpl_result.
  rewrite (find_in_devices_spec _ _ Hv). simpl_result.
  rewrite find_app.
  destruct (List.find _ devices); [done|]. by apply IH.
Qed.

Lemma well_formed_devices_groups simctl_data :
  well_formed_devices simctl_data = true ->
  simctl_data.["devices"] = Return (Py.JObj (device_groups simctl_data)) /\
  forallb (fun group : string * Py.json => is_device_list (snd group))
          (device_groups simctl_data) = true.
Proof.
  unfold well_formed_devices, device_groups, field.
  by destruct (simctl_data.["devices"]) as [[]|].
Qed.

(** C4.  On a payload of the scoped listing command, [get_device_state]
    raises the device-not-found error exactly when no device entry of
    any runtime has the given udid; when there is one, it returns the
    state that the fixed table gives for the state label of the first
    such entry, [UNKNOWN] for a label outside the table. *)
Theorem get_device_state_spec json_loads udid sub output simctl_data :
  sub (simctl_list_devices udid) = Return output ->
  json_loads output = Return simctl_data ->
  well_formed_devices simctl_data = true ->
  (get_device_state json_loads udid sub = Raise (device_not_found udid) <->
   forall device, In device (all_devices simctl_data) -> device_udid device <> udid) /\
  (forall device,
      first_device udid simctl_data = Some device ->
      In device (all_devices simctl_data) /\
      device_udid device = udid /\
      get_device_state json_loads udid sub
      = Return (expected_state (device_state_label device))) /\
  ((exists device, In device (all_devices simctl_data) /\ device_udid device = udid) ->
   exists device, first_device udid simctl_data = Some device) /\
  (expected_state "Booted" = BOOTED /\
   expected_state "Shutting Down" = SHUTTING_DOWN /\
   expected_state "Shutdown" = SHUTDOWN /\
   forall label, label <> "Booted" -> label <> "Shutting Down" ->
                 label <> "Shutdown" -> expected_state label = UNKNOWN).
Proof.
  intros Hsub Hloads Hwf.
  destruct (well_formed_devices_groups _ Hwf) as (Hdev & Hgroups).
  assert (Hres : get_device_state json_loads udid sub =
                 match first_device udid simctl_data with
                 | Some d => Return (expected_state (device_state_label d))
                 | None => Raise (device_not_found udid)
                 end).
  { rewrite (get_device_state_decoded _ _ _ _ _ Hsub Hloads), Hdev. simpl_result.
    cbn [Py.items]. simpl_result.
    rewrite (find_in_runtimes_spec _ _ Hgroups). simpl_result.
    unfold first_device, all_devices. by destruct (List.find _ _). }
  split; [split|split; [|split]].
  - intros Hraise d Hin Hu. rewrite Hres in Hraise.
    destruct (first_device udid simctl_data) eqn:Hf; [done|].
    unfold first_device in Hf.
    apply (find_none _ _ Hf) in Hin. apply String.eqb_neq in Hin. done.
  - intros Hall. rewrite Hres.
    destruct (first_device udid simctl_data) as [d|] eqn:Hf; [|done].
    apply find_some in Hf as [Hin Hu]. apply String.eqb_eq in Hu.
    by destruct (Hall d Hin).
  - intros d Hf. rewrite Hres, Hf.
    apply find_some in Hf as [Hin Hu]. by apply String.eqb_eq in Hu.
  - intros (d & Hin & Hu).
    destruct (first_device udid simctl_data) as [d'|] eqn:Hf; [by exists d'|].
    apply (find_none _ _ Hf) in Hin. apply String.eqb_neq in Hin. done.
  - repeat split. intros label H1 H2 H3. unfold expected_state.
    apply String.eqb_neq in H1, H2, H3. by rewrite H1, H2, H3.
Qed.

(** ** Dictionaries keyed by strings *)

Lemma assoc_In {V} k (m : list (string * V)) v :
  Py.assoc k m = Some v -> In (k, v) m.
Proof.
  induction m as [|[k' v'] m IH]; [done|]. cbn [Py.assoc].
  destruct (String.eqb_spec k' k) as [->|_].
  - intros [= ->]. by left.
  - intros H. right. by apply IH.
Qed.

Lemma setitem_fresh {V} k (v : V) d :
  ~ In k (map fst d) -> Py.setitem String.eqb k v d = (d ++ [(k, v)])%list.
Proof.
  induction d as [|[k' v'] d IH]; [done|]. cbn [map fst In Py.setitem].
  intros Hn. destruct (String.eqb_spec k' k) as [->|_].
  - destruct Hn. by left.
  - cbn [app]. change (((k', v') :: d) ++ [(k, v)])%list
      with ((k', v') :: (d ++ [(k, v)]))%list.
    f_equal. apply IH. tauto.
Qed.

Lemma setitem_keys {V} k (v : V) d :
  In k (map fst d) -> map fst (Py.setitem String.eqb k v d) = map fst d.
Proof.
  induction d as [|[k' v'] d IH]; [done|]. cbn [map fst In Py.setitem].
  intros Hin. destruct (String.eqb_spec k' k) as [->|Hne]; [done|].
  cbn [map fst]. f_equal. apply IH. by destruct Hin.
Qed.

Lemma setitem_NoDup {V} k (v : V) d :
  NoDup (map fst d) -> NoDup (map fst (Py.setitem String.eqb k v d)).
Proof.
  intros Hd. destruct (in_dec string_dec k (map fst d)) as [Hin|Hn].
  - by rewrite setitem_keys.
  - rewrite (setitem_fresh _ _ _ Hn), map_app. cbn [map fst].
    apply NoDup_app. repeat split; try done.
    + intros x Hx ->%list_elem_of_singleton. by apply list_elem_of_In in Hx.
    + apply NoDup_singleton.
Qed.

Lemma setitem_key_In {V} k (v : V) d x :
  In x (map fst (Py.setitem String.eqb k v d)) <-> x = k \/ In x (map fst d).
Proof.
  destruct (in_dec string_dec k (map fst d)) as [Hin|Hn].
  - rewrite (setitem_keys _ _ _ Hin). split; [auto|]. by intros [->|?].
  - rewrite (setitem_fresh _ _ _ Hn), map_app, in_app_iff. cbn [map fst In].
    split; [intros [?|[<-|[]]]; auto | intros [->|?]; auto].
Qed.

Lemma setitem_In {V} k (v : V) d item :
  In item (Py.setitem String.eqb k v d) -> item = (k, v) \/ In item d.
Proof.
  induction d as [|[k' v'] d IH]; cbn [Py.setitem In].
  - intros [<-|[]]. by left.
  - destruct (String.eqb_spec k' k) as [->|_]; cbn [In].
    + intros [<-|?]; auto.
    + intros [<-|?]; [auto|]. destruct IH; auto.
Qed.

Lemma get_setitem {V} k k' (v : V) d :
  Py.get String.eqb k (Py.setitem String.eqb k' v d) =
  if String.eqb k' k then Some v else Py.get String.eqb k d.
Proof.
  induction d as [|[k0 v0] d IH]; cbn [Py.setitem Py.get]; [done|].
  destruct (String.eqb_spec k0 k') as [->|Hne]; cbn [Py.get].
  - by destruct (String.eqb k' k).
  - destruct (String.eqb_spec k0 k) as [->|_]; [|done].
    by destruct (String.eqb_spec k' k) as [->|_].
Qed.

Lemma get_In {V} k (v : V) d : Py.get String.eqb k d = Some v -> In (k, v) d.
Proof.
  induction d as [|[k' v'] d IH]; [done|]. cbn [Py.get].
  destruct (String.eqb_spec k' k) as [->|_].
  - intros [= ->]. by left.
  - intros H. right. by apply IH.
Qed.

Lemma get_key {V} k (d : Py.dict string V) :
  In k (map fst d) -> exists v, Py.get String.eqb k d = Some v.
Proof.
  induction d as [|[k' v'] d IH]; [done|]. cbn [map fst In Py.get].
  destruct (String.eqb_spec k' k) as [->|Hne]; [by eexists|].
  intros [?|?]; [done | by apply IH].
Qed.

Lemma get_map_values {V W} (h : V -> W) k (d : Py.dict string V) :
  Py.get String.eqb k (map (fun item : string * V => (fst item, h (snd item))) d)
  = option_map h (Py.get String.eqb k d).
Proof.
  induction d as [|[k' v'] d IH]; [done|]. cbn [map fst snd Py.get].
  by destruct (String.eqb k' k).
Qed.

Section DictOf.

Context {V : Type}.
Implicit Types (items acc : list (string * V)).

Local Notation "'store'" :=
  (fun d (item : string * V) => Py.setitem String.eqb (fst item) (snd item) d).

Lemma fold_setitem_NoDup items acc :
  NoDup (map fst acc) -> NoDup (map fst (fold_left store items acc)).
Proof.
  revert acc. induction items as [|it items IH]; intros acc Hacc; [done|].
  cbn [fold_left]. by apply IH, setitem_NoDup.
Qed.

Lemma fold_setitem_fresh items acc :
  NoDup (map fst (acc ++ items)%list) -> fold_left store items acc = (acc ++ items)%list.
Proof.
  revert acc. induction items as [|[k v] items IH]; intros acc Hnd.
  - by rewrite app_nil_r.
  - cbn [fold_left fst snd].
    assert (~ In k (map fst acc)) as Hk.
    { rewrite map_app in Hnd. apply NoDup_app in Hnd as (_ & Hdisj & _).
      intros Hin%list_elem_of_In. apply (Hdisj _ Hin). cbn [map fst]. left. }
    rewrite (setitem_fresh _ _ _ Hk), IH; rewrite <- app_assoc; done.
Qed.

Lemma fold_setitem_In items acc item :
  In item (fold_left store items acc) -> In item items \/ In item acc.
Proof.
  revert acc. induction items as [|it items IH]; intros acc; [by right|].
  cbn [fold_left In]. intros [?|[->|?]%setitem_In]%IH; auto.
  left. left. by destruct it.
Qed.

Lemma fold_setitem_key items acc k :
  In k (map fst items) \/ In k (map fst acc) ->
  In k (map fst (fold_left store items acc)).
Proof.
  revert acc. induction items as [|it items IH]; intros acc; cbn [map In fold_left].
  - by intros [[]|?].
  - intros H. apply IH. rewrite setitem_key_In.
    destruct H as [[<-|?]|?]; auto.
Qed.

Lemma dict_of_NoDup_keys items : NoDup (map fst (dict_of String.eqb items)).
Proof. apply fold_setitem_NoDup. constructor. Qed.

Lemma dict_of_distinct items :
  NoDup (map fst items) -> dict_of String.eqb items = items.
Proof. intros H. unfold dict_of. by rewrite fold_setitem_fresh. Qed.

Lemma dict_of_In items item : In item (dict_of String.eqb items) -> In item items.
Proof. by intros [?|[]]%fold_setitem_In. Qed.

Lemma dict_of_get items k :
  In k (map fst items) ->
  exists v, Py.get String.eqb k (dict_of String.eqb items) = Some v /\ In (k, v) items.
Proof.
  intros Hk. destruct (get_key k (dict_of String.eqb items)) as [v Hv].
  { apply fold_setitem_key. by left. }
  exists v. split; [done|]. by apply dict_of_In, get_In.
Qed.

End DictOf.

(** ** get_simulators on a well-formed payload *)

Lemma field_Return k o v : o.[k] = Return v -> field k o = v.
Proof. unfold field. by intros ->. Qed.

Lemma well_formed_listing_parts os_name simctl_data :
  well_formed_listing os_name simctl_data = true ->
  simctl_data.["runtimes"] = Return (Py.JArr (runtimes_of simctl_data)) /\
  forallb is_runtime (runtimes_of simctl_data) = true /\
  well_formed_devices simctl_data = true /\
  forallb (fun runtime =>
             negb (retained os_name runtime)
             || has_devices simctl_data (runtime_identifier runtime))
          (runtimes_of simctl_data) = true.
Proof.
  unfold well_formed_listing, runtimes_of, field.
  destruct (simctl_data.["runtimes"]) as [[]|]; try done.
  by intros [[? ?]%andb_true_iff ?]%andb_true_iff.
Qed.

Lemma os_versions_of_spec os_name simctl_data :
  well_formed_listing os_name simctl_data = true ->
  os_versions_of os_name simctl_data = Return (retained_versions os_name simctl_data).
Proof.
  intros (Hrts & Hall & _ & _)%well_formed_listing_parts.
  unfold os_versions_of. rewrite Hrts. simpl_result. cbn [Py.iter]. simpl_result.
  apply (dict_comprehension_filter_map Py.set_str String.eqb _
           (retained os_name)
           (fun runtime => (os_version runtime, field "identifier" runtime))).
  - intros rt Hin. apply os_versions_item_runtime.
    rewrite forallb_forall in Hall. by apply Hall.
  - done.
Qed.

Lemma devices_item_device device :
  is_device device = true ->
  devices_item device =
  Return (if is_available device
          then Some (field "udid" device, field "name" device)
          else None).
Proof.
  intros (Hu & Hn & Ha & _)%is_device_fields.
  unfold devices_item. rewrite Ha. simpl_result. cbn [Py.truthy].
  destruct (is_available device); [|done].
  rewrite Hu, Hn. simpl_result. by rewrite (field_Return _ _ _ Hu), (field_Return _ _ _ Hn).
Qed.

Lemma devices_of_spec simctl_data identifier :
  well_formed_devices simctl_data = true ->
  has_devices simctl_data identifier = true ->
  devices_of simctl_data (Py.JStr identifier)
  = Return (available_devices simctl_data identifier).
Proof.
  intros (Hdev & Hgroups)%well_formed_devices_groups Hhas.
  unfold has_devices in Hhas. unfold available_devices, devices_under.
  destruct (Py.assoc identifier (device_groups simctl_data)) as [v|] eqn:Hv; [|done].
  rewrite forallb_forall in Hgroups.
  pose proof (Hgroups _ (assoc_In _ _ _ Hv)) as Hlist. cbn [snd] in Hlist.
  destruct v as [| | | |devices|]; try done. cbn [is_device_list] in Hlist.
  unfold devices_of. rewrite Hdev. simpl_result.
  cbn [Py.getitem]. rewrite Hv. simpl_result. cbn [Py.iter]. simpl_result.
  apply (dict_comprehension_filter_map Py.set_json Py.key_eqb _ is_available
           (fun device => (field "udid" device, field "name" device))).
  - intros d Hin. apply devices_item_device.
    rewrite forallb_forall in Hlist. by apply Hlist.
  - intros d acc Hin _. cbn [fst snd]. unfold Py.set_json.
    rewrite forallb_forall in Hlist.
    destruct (is_device_fields _ (Hlist _ Hin)) as (Hu & _).
    by rewrite (field_Return _ _ _ Hu).
Qed.

Lemma filter_all {A} (l : list A) : List.filter (fun _ => true) l = l.
Proof. induction l as [|x l IH]; [done|]. cbn [List.filter]. by rewrite IH. Qed.

Lemma simulators_of_spec simctl_data (os_versions : Py.dict string Py.json) :
  NoDup (map fst os_versions) ->
  (forall item, In item os_versions ->
                devices_of simctl_data (snd item)
                = Return (available_devices simctl_data (text (snd item)))) ->
  simulators_of simctl_data os_versions =
  Return (map (fun item : string * Py.json =>
                 (fst item, available_devices simctl_data (text (snd item))))
              os_versions).
Proof.
  intros Hnd Hinner. unfold simulators_of.
  rewrite (dict_comprehension_filter_map Py.set_str String.eqb _ (fun _ => true)
             (fun item : string * Py.json =>
                (fst item, available_devices simctl_data (text (snd item))))).
  - rewrite filter_all, fold_setitem_fresh; [done|].
    cbn [app]. by rewrite map_map.
  - intros [version identifier] Hin. specialize (Hinner _ Hin).
    cbn [fst snd] in *. rewrite Hinner. by simpl_result.
  - done.
Qed.

Lemma retained_versions_In os_name simctl_data item :
  In item (retained_versions os_name simctl_data) ->
  exists runtime,
    In runtime (runtimes_of simctl_data) /\
    retained os_name runtime = true /\
    item = (os_version runtime, field "identifier" runtime).
Proof.
  intros Hin%dict_of_In. apply in_map_iff in Hin as (rt & <- & Hrt).
  apply filter_In in Hrt as [? ?]. by exists rt.
Qed.

Lemma get_simulators_well_formed json_loads os_name sub output simctl_data :
  sub simctl_list = Return output ->
  json_loads output = Return simctl_data ->
  well_formed_listing os_name simctl_data = true ->
  get_simulators json_loads os_name sub
  = Return (expected_simulators os_name simctl_data).
Proof.
  intros Hsub Hloads Hwf.
  rewrite (get_simulators_decoded _ _ _ _ _ Hsub Hloads).
  rewrite (os_versions_of_spec _ _ Hwf). simpl_result.
  destruct (well_formed_listing_parts _ _ Hwf) as (_ & Hall & Hdev & Hhas).
  rewrite simulators_of_spec; [done | apply dict_of_NoDup_keys |].
  intros item (rt & Hin & Hkeep & ->)%retained_versions_In. cbn [snd].
  rewrite forallb_forall in Hall, Hhas.
  destruct (is_runtime_fields _ (Hall _ Hin)) as (_ & Hi & _).
  rewrite (field_Return _ _ _ Hi). cbn [text].
  apply devices_of_spec; [done|].
  specialize (Hhas _ Hin). rewrite Hkeep in Hhas. done.
Qed.

Lemma filter_none {A} (p : A -> bool) l :
  (forall x, In x l -> p x = false) -> List.filter p l = [].
Proof.
  induction l as [|x l IH]; [done|]. intros H. cbn [List.filter].
  rewrite (H x) by (by left). apply IH. intros y Hy. apply H. by right.
Qed.

(** Dictionaries whose keys are decoded strings behave as dictionaries
    keyed by these strings. *)
Lemma dict_of_strings {V} (items : list (string * V)) :
  dict_of Py.key_eqb (map (fun item => (Py.JStr (fst item), snd item)) items)
  = map (fun item => (Py.JStr (fst item), snd item)) (dict_of String.eqb items).
Proof.
  unfold dict_of. change (@nil (Py.json * V))
    with (map (fun item : string * V => (Py.JStr (fst item), snd item)) []).
  generalize (@nil (string * V)) as acc.
  induction items as [|[k v] items IH]; intros acc; [done|].
  cbn [map fold_left fst snd]. rewrite <- IH. f_equal.
  clear. induction acc as [|[k' v'] acc IH]; [done|].
  cbn [map fst snd Py.setitem Py.key_eqb].
  destruct (String.eqb k' k); [done|]. cbn [map fst snd]. by rewrite IH.
Qed.

Lemma available_devices_distinct simctl_data identifier :
  forallb is_device (devices_under simctl_data identifier) = true ->
  NoDup (map device_udid
           (List.filter is_available (devices_under simctl_data identifier))) ->
  available_devices simctl_data identifier =
  map (fun device => (Py.JStr (device_udid device), Py.JStr (device_name device)))
      (List.filter is_available (devices_under simctl_data identifier)).
Proof.
  intros Hall Hnd. unfold available_devices.
  set (ds := List.filter is_available _) in *.
  assert (Forall (fun d => is_device d = true) ds) as Hds.
  { apply List.Forall_forall. intros d [Hd _]%filter_In.
    rewrite forallb_forall in Hall. by apply Hall. }
  transitivity (dict_of Py.key_eqb
    (map (fun item : string * Py.json => (Py.JStr (fst item), snd item))
         (map (fun d => (device_udid d, Py.JStr (device_name d))) ds))).
  { f_equal. rewrite map_map. apply map_ext_Forall.
    eapply Forall_impl; [exact Hds|]. intros d (Hu & Hn & _)%is_device_fields.
    cbn [fst snd]. by rewrite (field_Return _ _ _ Hu), (field_Return _ _ _ Hn). }
  rewrite dict_of_strings, dict_of_distinct, map_map; [done|].
  by rewrite map_map.
Qed.

Lemma devices_under_devices simctl_data identifier :
  well_formed_devices simctl_data = true ->
  forallb is_device (devices_under simctl_data identifier) = true.
Proof.
  intros (_ & Hgroups)%well_formed_devices_groups. unfold devices_under.
  destruct (Py.assoc identifier (device_groups simctl_data)) as [v|] eqn:Hv; [|done].
  rewrite forallb_forall in Hgroups.
  pose proof (Hgroups _ (assoc_In _ _ _ Hv)) as Hlist. cbn [snd] in Hlist.
  by destruct v.
Qed.

(** C5.  On a well-formed listing payload [get_simulators] returns the
    inventory of the specification: the retained runtimes are those
    whose name starts with ['<os_name> '] and that are available, the OS
    version is what follows the first space of the name, and the inner
    mapping holds the udid and the name of the available devices listed
    under the identifier of the runtime.  When the retained runtimes have
    distinct names and the available devices of a runtime distinct udids,
    the result has exactly one entry for each retained runtime and each
    inner mapping exactly one item for each available device, in the
    order of the payload. *)
Theorem get_simulators_spec json_loads os_name sub output simctl_data :
  sub simctl_list = Return output ->
  json_loads output = Return simctl_data ->
  well_formed_listing os_name simctl_data = true ->
  get_simulators json_loads os_name sub
  = Return (expected_simulators os_name simctl_data) /\
  (NoDup (map os_version
            (List.filter (retained os_name) (runtimes_of simctl_data))) ->
   (forall runtime,
       In runtime (runtimes_of simctl_data) ->
       retained os_name runtime = true ->
       NoDup (map device_udid
                (List.filter is_available
                   (devices_under simctl_data (runtime_identifier runtime))))) ->
   get_simulators json_loads os_name sub =
   Return
     (map (fun runtime =>
             (os_version runtime,
              map (fun device =>
                     (Py.JStr (device_udid device), Py.JStr (device_name device)))
                  (List.filter is_available
                     (devices_under simctl_data (runtime_identifier runtime)))))
          (List.filter (retained os_name) (runtimes_of simctl_data)))).
Proof.
  intros Hsub Hloads Hwf.
  pose proof (get_simulators_well_formed _ _ _ _ _ Hsub Hloads Hwf) as Hres.
  split; [done|]. intros Hversions Hudids. rewrite Hres. f_equal.
  destruct (well_formed_listing_parts _ _ Hwf) as (_ & _ & Hdev & _).
  unfold expected_simulators, retained_versions.
  rewrite dict_of_distinct by (by rewrite map_map).
  rewrite map_map. apply map_ext_in. intros rt [Hin Hkeep]%filter_In.
  cbn [fst snd]. f_equal.
  apply available_devices_distinct; [by apply devices_under_devices|].
  by apply Hudids.
Qed.

Lemma get_simulators_spec_witness :
  get_simulators (decodes listing_text listing) "iOS" (always (Return listing_text))
  = Return [("14.0", [(Py.JStr "ABC", Py.JStr "iPhone 11")])].
Proof.
  apply (proj1 (get_simulators_spec (decodes listing_text listing) "iOS"
                  (always (Return listing_text)) listing_text listing
                  eq_refl eq_refl eq_refl)).
Defined.

(** C9.  A retained runtime whose device list holds no available device
    keeps its entry: its OS version is a key of the result and the inner
    mapping stored under it is empty.  The runtimes of a payload are
    identified by their name: a retained runtime with the same OS
    version carries the same identifier. *)
Theorem get_simulators_no_device json_loads os_name sub output simctl_data runtime :
  sub simctl_list = Return output ->
  json_loads output = Return simctl_data ->
  well_formed_listing os_name simctl_data = true ->
  In runtime (runtimes_of simctl_data) ->
  retained os_name runtime = true ->
  (forall other,
      In other (runtimes_of simctl_data) ->
      retained os_name other = true ->
      os_version other = os_version runtime ->
      runtime_identifier other = runtime_identifier runtime) ->
  (forall device,
      In device (devices_under simctl_data (runtime_identifier runtime)) ->
      is_available device = false) ->
  exists simulators,
    get_simulators json_loads os_name sub = Return simulators /\
    In (os_version runtime) (map fst simulators) /\
    Py.get String.eqb (os_version runtime) simulators = Some [].
Proof.
  intros Hsub Hloads Hwf Hin Hkeep Hsame Hnone.
  exists (expected_simulators os_name simctl_data).
  split; [by eapply get_simulators_well_formed|].
  assert (Py.get String.eqb (os_version runtime)
            (expected_simulators os_name simctl_data) = Some []) as Hget.
  { unfold expected_simulators.
    rewrite (get_map_values (fun v => available_devices simctl_data (text v))).
    destruct (dict_of_get
                (map (fun rt => (os_version rt, field "identifier" rt))
                     (List.filter (retained os_name) (runtimes_of simctl_data)))
                (os_version runtime)) as (v & Hv & Hitem).
    { rewrite map_map. cbn [fst]. apply in_map_iff. exists runtime.
      split; [done|]. by apply filter_In. }
    unfold retained_versions. rewrite Hv. cbn [option_map]. f_equal.
    apply in_map_iff in Hitem as (other & [= Hver <-] & [Ho Hk]%filter_In).
    change (text (field "identifier" other)) with (runtime_identifier other).
    rewrite (Hsame other Ho Hk Hver).
    unfold available_devices. by rewrite (filter_none _ _ Hnone). }
  split; [|done].
  apply get_In in Hget. apply in_map_iff. by exists (os_version runtime, []).
Qed.

Lemma get_simulators_no_device_witness :
  exists simulators,
    get_simulators (decodes listing_old_text listing_old) "iOS"
      (always (Return listing_old_text)) = Return simulators /\
    In "13.2" (map fst simulators) /\
    Py.get String.eqb "13.2" simulators = Some [].
Proof.
  apply (get_simulators_no_device (decodes listing_old_text listing_old) "iOS"
           (always (Return listing_old_text)) listing_old_text listing_old
           (runtime_entry "iOS 13.2" ios_13 true)).
  - reflexivity.
  - reflexivity.
  - reflexivity.
  - left. reflexivity.
  - reflexivity.
  - intros other [<-|[<-|[]]] _ Hver; [reflexivity | discriminate Hver].
  - intros device [<-|[]]. reflexivity.
Defined.

Lemma get_simulators_no_runtime_witness :
  get_simulators (decodes listing_text listing) "tvOS" (always (Return listing_text))
  = Return [].
Proof.
  apply (get_simulators_no_runtime (decodes listing_text listing) "tvOS"
           (always (Return listing_text)) listing_text listing
           [runtime_entry "iOS 14.0" ios_14 true]).
  - reflexivity.
  - reflexivity.
  - reflexivity.
  - repeat constructor. exists "iOS 14.0". split; reflexivity.
Defined.

Lemma get_device_state_spec_witness :
  get_device_state (decodes scoped_listing_text scoped_listing) "ABC"
    (always (Return scoped_listing_text)) = Return BOOTED.
Proof.
  destruct (get_device_state_spec (decodes scoped_listing_text scoped_listing) "ABC"
              (always (Return scoped_listing_text)) scoped_listing_text
              scoped_listing eq_refl eq_refl eq_refl) as (_ & Hfound & _).
  destruct (Hfound (device_entry "ABC" "iPhone 11" true "Booted") eq_refl)
    as (_ & _ & Hstate).
  exact Hstate.
Defined.

(** ** Further runs of the code *)

Example get_device_state_unknown :
  get_device_state (decodes scoped_listing_text scoped_listing) "DEF"
    (always (Return scoped_listing_text)) = Return UNKNOWN.
Proof. reflexivity. Qed.

Example get_device_state_not_found :
  get_device_state (decodes scoped_listing_text scoped_listing) "ZZZ"
    (always (Return scoped_listing_text))
  = Raise (BriefcaseCommandError "Unable to determine status of device ZZZ.").
Proof. reflexivity. Qed.

Example get_simulators_unavailable_device :
  get_simulators (decodes listing_old_text listing_old) "iOS"
    (always (Return listing_old_text))
  = Return [("13.2", []); ("14.0", [(Py.JStr "ABC", Py.JStr "iPhone 11")])].
Proof. reflexivity. Qed.

Example ensure_unexpected_output :
  ensure_xcode_is_installed Py.int_of_str (Some [11; 3])
    (always (Return "Wibble Wibble Wibble"))
  = IO [version_warning] (Return tt).
Proof. reflexivity. Qed.

Example ensure_empty_version :
  ensure_xcode_is_installed Py.int_of_str (Some [11; 3]) (always (Return "Xcode "))
  = IO [] (Raise ValueError).
Proof. reflexivity. Qed.

(** * Further properties of the module *)

(** ** The order on versions *)

Lemma lex_lt_trans a b c : lex_lt a b -> lex_lt b c -> lex_lt a c.
Proof.
  intros Hab. revert c. induction Hab as [y b|x y a b Hxy|x a b Hab IH];
    intros c Hbc; inversion Hbc; subst.
  - constructor.
  - constructor.
  - constructor. lia.
  - by constructor.
  - by constructor.
  - apply lex_lt_tail. by apply IH.
Qed.

Lemma lex_le_trans a b c : lex_le a b -> lex_le b c -> lex_le a c.
Proof.
  intros [->|Hab] [->|Hbc]; [by left | by right | by right |].
  right. by eapply lex_lt_trans.
Qed.

Lemma lex_lt_app p y s : lex_lt p (p ++ y :: s)%list.
Proof. induction p as [|x p IH]; [constructor | by apply lex_lt_tail]. Qed.

Lemma lex_le_app p s : lex_le p (p ++ s)%list.
Proof.
  destruct s as [|y s]; [left; by rewrite app_nil_r | right; apply lex_lt_app].
Qed.

(** ** More on ensure_xcode_is_installed *)

(** X1.  Once the version command has returned, the warning is printed
    exactly when a minimum version is given and the output does not start
    with ['Xcode ']; it is printed alone and followed by a normal return.
    The only exceptions the function then raises are [ValueError] and the
    error of a version that is too low. *)
Theorem ensure_outcomes int min_version sub output :
  sub xcodebuild_version = Return output ->
  let run := ensure_xcode_is_installed int min_version sub in
  (printed run =
   if bool_decide (min_version <> None) && negb (Py.startswith output "Xcode ")
   then [version_warning] else []) /\
  (printed run <> [] -> outcome run = Return tt) /\
  (outcome run = Return tt \/
   outcome run = Raise ValueError \/
   exists m v, min_version = Some m /\
               installed_version int output = Return v /\
               lex_lt v m /\
               outcome run = Raise (BriefcaseCommandError (version_too_low m v))).
Proof.
  intros Hsub run. subst run. rewrite (ensure_Return int _ _ _ Hsub).
  destruct min_version as [m|].
  2:{ split; [done|]. split; [done | by left]. }
  rewrite bool_decide_true by done. cbn [andb].
  destruct (Py.startswith output "Xcode ") eqn:Hx.
  2:{ split; [done|]. split; [done | by left]. }
  cbn [negb].
  destruct (installed_version_outcome int _ Hx)
    as [(pieces & parsed & _ & _ & Hv)|(pieces & _ & _ & Hv)]; rewrite Hv.
  - destruct (Py.tuple_lt _ m) eqn:Hlt.
    + split; [done|]. split; [done|]. right. right.
      exists m, (parsed ++ [0; 0])%list. by apply tuple_lt_spec in Hlt.
    + split; [done|]. split; [done | by left].
  - split; [done|]. split; [done | right; by left].
Qed.

Lemma ensure_outcomes_witness :
  printed (ensure_xcode_is_installed Py.int_of_str (Some [11; 3])
             (always (Return "xcode-select: error")))
  = [version_warning].
Proof.
  apply (proj1 (ensure_outcomes Py.int_of_str (Some [11; 3])
                  (always (Return "xcode-select: error")) "xcode-select: error"
                  eq_refl)).
Defined.

(** X2.  Only the word that follows ['Xcode '] counts: what comes after
    it on the first line and all the other lines of the output (the build
    version) have no influence on the result. *)
Theorem ensure_ignores_rest int min_version sub sub' word rest rest' :
  is_word word = true ->
  ends_word rest = true ->
  ends_word rest' = true ->
  sub xcodebuild_version = Return ("Xcode " ++ word ++ rest) ->
  sub' xcodebuild_version = Return ("Xcode " ++ word ++ rest') ->
  ensure_xcode_is_installed int min_version sub
  = ensure_xcode_is_installed int min_version sub'.
Proof.
  intros Hword Hrest Hrest' Hsub Hsub'.
  rewrite (ensure_Return int _ _ _ Hsub), (ensure_Return int _ _ _ Hsub').
  rewrite !startswith_app.
  by rewrite !(installed_version_word int word) by done.
Qed.

Lemma ensure_ignores_rest_witness :
  ensure_xcode_is_installed Py.int_of_str (Some [11; 3])
    (always (Return ("Xcode 11.2.1" ++ Py.LF ++ "Build version 11B500" ++ Py.LF)))
  = ensure_xcode_is_installed Py.int_of_str (Some [11; 3])
      (always (Return "Xcode 11.2.1")).
Proof.
  apply (ensure_ignores_rest Py.int_of_str (Some [11; 3]) _ _ "11.2.1"
           (Py.LF ++ "Build version 11B500" ++ Py.LF) "");
    reflexivity.
Defined.

(** X3.  Lowering the requirement never turns a success into a
    failure: when the check returns normally for a minimum version, it
    returns normally for every smaller minimum version and for no
    minimum at all. *)
Theorem ensure_monotone int m m' sub :
  outcome (ensure_xcode_is_installed int (Some m) sub) = Return tt ->
  lex_le m' m ->
  outcome (ensure_xcode_is_installed int (Some m') sub) = Return tt /\
  outcome (ensure_xcode_is_installed int None sub) = Return tt.
Proof.
  intros Hok Hle.
  destruct (sub xcodebuild_version) as [output|e] eqn:Hsub.
  - rewrite (ensure_Return int (Some m) _ _ Hsub) in Hok.
    rewrite (ensure_Return int (Some m') _ _ Hsub), (ensure_Return int None _ _ Hsub).
    split; [|done].
    destruct (Py.startswith output "Xcode "); [|done].
    destruct (installed_version int output) as [v|e]; [|by destruct e].
    destruct (Py.tuple_lt v m) eqn:Hlt; [done|].
    apply tuple_lt_false in Hlt.
    pose proof (lex_le_trans _ _ _ Hle Hlt) as Hle'.
    apply tuple_lt_false in Hle'. by rewrite Hle'.
  - rewrite (ensure_Raise int (Some m) _ _ Hsub) in Hok. by destruct e.
Qed.

Lemma ensure_monotone_witness :
  outcome (ensure_xcode_is_installed Py.int_of_str (Some [10; 3])
             (always (Return "Xcode 11.2.1"))) = Return tt /\
  outcome (ensure_xcode_is_installed Py.int_of_str None
             (always (Return "Xcode 11.2.1"))) = Return tt.
Proof.
  apply (ensure_monotone Py.int_of_str [11; 2] [10; 3]
           (always (Return "Xcode 11.2.1"))).
  - reflexivity.
  - right. apply lex_lt_head. lia.
Defined.

(** X4.  The two appended zeros are the only padding.  A minimum version
    that is a prefix of the installed version (the converted pieces
    followed by two zeros) is met; a minimum version that extends the
    installed version by further components is not, even when these are
    all zero. *)
Theorem ensure_padding int sub word rest parsed more :
  sub xcodebuild_version = Return ("Xcode " ++ word ++ rest) ->
  is_word word = true ->
  ends_word rest = true ->
  Forall2 (fun p n => int p = Some n) (Py.split "." word) parsed ->
  let v := (parsed ++ [0; 0])%list in
  (forall m s, v = (m ++ s)%list ->
               ensure_xcode_is_installed int (Some m) sub = IO [] (Return tt)) /\
  (more <> [] ->
   ensure_xcode_is_installed int (Some (v ++ more)%list) sub =
   IO [] (Raise (BriefcaseCommandError (version_too_low (v ++ more)%list v)))).
Proof.
  intros Hsub Hword Hrest Hparsed v.
  assert (Hv : installed_version int ("Xcode " ++ word ++ rest) = Return v).
  { rewrite (installed_version_word int _ _ Hword Hrest).
    apply mapM_int_Return in Hparsed. by rewrite Hparsed. }
  split.
  - intros m s Hm. rewrite (ensure_Return int _ _ _ Hsub), startswith_app, Hv.
    assert (lex_le m v) as Hle by (rewrite Hm; apply lex_le_app).
    apply tuple_lt_false in Hle. by rewrite Hle.
  - intros Hmore. destruct more as [|y more]; [done|].
    rewrite (ensure_Return int _ _ _ Hsub), startswith_app, Hv.
    pose proof (lex_lt_app v y more) as Hlt.
    apply tuple_lt_spec in Hlt. by rewrite Hlt.
Qed.

Lemma ensure_padding_witness :
  ensure_xcode_is_installed Py.int_of_str (Some [11; 0; 0; 0])
    (always (Return "Xcode 11"))
  = IO [] (Raise (BriefcaseCommandError
                    "Xcode 11.0.0.0 is required; 11.0.0 is installed. Please update Xcode.")).
Proof.
  apply (proj2 (ensure_padding Py.int_of_str (always (Return "Xcode 11"))
                  "11" "" [11] [0] eq_refl eq_refl eq_refl
                  ltac:(repeat constructor))).
  discriminate.
Defined.

Lemma concat_cons sep x y l :
  String.concat sep (x :: y :: l) = x ++ sep ++ String.concat sep (y :: l).
Proof. reflexivity. Qed.

Lemma append_String c s t : String c s ++ t = String c (s ++ t).
Proof. reflexivity. Qed.

Lemma append_assoc s t u : (s ++ t) ++ u = s ++ t ++ u.
Proof.
  induction s as [|c s IH]; [done|]. by rewrite !append_String, IH.
Qed.

(** [sep.join(s.split(sep)) == s] *)
Lemma join_split sep s : Py.join (String sep "") (Py.split sep s) = s.
Proof.
  unfold Py.join. induction s as [|c s IH]; [done|]. cbn [Py.split].
  destruct (Py.split sep s) as [|w ws] eqn:Hs; [by apply split_nonempty in Hs|].
  destruct (Ascii.eqb_spec c sep) as [->|_].
  - rewrite concat_cons, IH. done.
  - destruct ws as [|w' ws].
    + cbn [String.concat] in *. by rewrite IH.
    + rewrite concat_cons in *. by rewrite append_String, IH.
Qed.

Lemma join_app sep l l' :
  l <> [] -> l' <> [] ->
  Py.join sep (l ++ l')%list = Py.join sep l ++ sep ++ Py.join sep l'.
Proof.
  unfold Py.join. intros Hl Hl'. induction l as [|x l IH]; [done|].
  destruct l as [|y l].
  - destruct l' as [|y l']; [done|]. done.
  - change ((x :: y :: l) ++ l')%list with (x :: y :: (l ++ l'))%list.
    rewrite !concat_cons.
    change (y :: (l ++ l'))%list with ((y :: l) ++ l')%list.
    rewrite IH by done. by rewrite !append_assoc.
Qed.

(** X5.  When the pieces of the version word are written the way [str]
    writes integers (no sign, no leading zero, no surrounding blank), the
    version that the error message reports as installed is the version
    word of the output followed by ['.0.0']. *)
Theorem version_too_low_quotes_word int m sub word rest parsed :
  sub xcodebuild_version = Return ("Xcode " ++ word ++ rest) ->
  is_word word = true ->
  ends_word rest = true ->
  Forall2 (fun p n => int p = Some n /\ Py.str n = p) (Py.split "." word) parsed ->
  lex_lt (parsed ++ [0; 0])%list m ->
  ensure_xcode_is_installed int (Some m) sub =
  IO [] (Raise (BriefcaseCommandError
                  ("Xcode " ++ Py.join "." (map Py.str m) ++ " is required; "
                   ++ (word ++ ".0.0") ++ " is installed. Please update Xcode."))).
Proof.
  intros Hsub Hword Hrest Hparsed Hlt.
  assert (Forall2 (fun p n => int p = Some n) (Py.split "." word) parsed) as Hint.
  { eapply Forall2_impl; [exact Hparsed|]. by intros p n [? _]. }
  assert (map Py.str parsed = Py.split "." word) as Hstr.
  { clear -Hparsed. induction Hparsed as [|p n ps ns [_ Hp] _ IH]; [done|].
    cbn [map]. by rewrite Hp, IH. }
  assert (Hv : installed_version int ("Xcode " ++ word ++ rest)
               = Return (parsed ++ [0; 0])%list).
  { rewrite (installed_version_word int _ _ Hword Hrest).
    apply mapM_int_Return in Hint. by rewrite Hint. }
  rewrite (ensure_Return int _ _ _ Hsub), startswith_app, Hv.
  apply tuple_lt_spec in Hlt. rewrite Hlt. do 3 f_equal.
  unfold version_too_low. do 3 f_equal.
  rewrite map_app, Hstr, join_app; [|apply split_nonempty|done].
  by rewrite join_split.
Qed.

Lemma version_too_low_quotes_word_witness :
  ensure_xcode_is_installed Py.int_of_str (Some [11; 3])
    (always (Return ("Xcode 11.2.1" ++ Py.LF ++ "Build version 11B500" ++ Py.LF)))
  = IO [] (Raise (BriefcaseCommandError
                    ("Xcode " ++ Py.join "." (map Py.str [11; 3]) ++ " is required; "
                     ++ ("11.2.1" ++ ".0.0") ++ " is installed. Please update Xcode."))).
Proof.
  apply (version_too_low_quotes_word Py.int_of_str [11; 3] _ "11.2.1"
           (Py.LF ++ "Build version 11B500" ++ Py.LF) [11; 2; 1]).
  - reflexivity.
  - reflexivity.
  - reflexivity.
  - repeat constructor.
  - apply lex_lt_tail. apply lex_lt_head. lia.
Defined.

(** ** The three functions and CalledProcessError *)

Lemma try_except_CalledProcessError {A} (body : result A) (r : exception) :
  r <> CalledProcessError ->
  try_except body
    (fun e => match e with
              | CalledProcessError => Some (Raise r)
              | _ => None
              end)
  <> Raise CalledProcessError.
Proof. intros Hr. destruct body as [a|e]; [done|]. destruct e; cbn; congruence. Qed.

(** X6.  [CalledProcessError] never leaves the module: whatever the
    command, the decoder and the payload do, none of the three functions
    raises it. *)
Theorem CalledProcessError_is_translated int json_loads min_version os_name udid sub :
  outcome (ensure_xcode_is_installed int min_version sub) <> Raise CalledProcessError /\
  get_simulators json_loads os_name sub <> Raise CalledProcessError /\
  get_device_state json_loads udid sub <> Raise CalledProcessError.
Proof.
  split; [|split].
  - destruct (sub xcodebuild_version) as [output|e] eqn:Hsub.
    + rewrite (ensure_Return int _ _ _ Hsub).
      destruct min_version as [m|]; [|done].
      destruct (Py.startswith output "Xcode "); [|done].
      destruct (installed_version int output) as [v|e]; [|by destruct e].
      by destruct (Py.tuple_lt v m).
    + rewrite (ensure_Raise int _ _ _ Hsub). by destruct e.
  - by apply try_except_CalledProcessError.
  - by apply try_except_CalledProcessError.
Qed.

(** ** The dictionaries returned by get_simulators *)

Ltac simpl_result_in H :=
  repeat first
    [ rewrite bind_Return in H | rewrite bind_Raise in H
    | rewrite mret_Return in H ].

Lemma key_eqb_refl k : Py.hashable k = true -> Py.key_eqb k k = true.
Proof.
  destruct k as [|b|n|s| |]; try done; intros _; cbn.
  - by destruct b.
  - apply Z.eqb_refl.
  - apply String.eqb_refl.
Qed.

Lemma setitem_json_NoDup {V} k (v : V) d :
  Py.hashable k = true ->
  NoDup (map fst d) -> NoDup (map fst (Py.setitem Py.key_eqb k v d)).
Proof.
  intros Hk. induction d as [|[k' v'] d IH]; cbn [Py.setitem map fst].
  - intros _. apply NoDup_singleton.
  - intros [Hk' Hd]%NoDup_cons.
    destruct (Py.key_eqb k' k) eqn:He; cbn [map fst]; [by apply NoDup_cons|].
    apply NoDup_cons. split; [|by apply IH].
    intros Hin%list_elem_of_In. apply Hk', list_elem_of_In.
    clear -Hin He Hk. induction d as [|[k0 v0] d IH]; cbn [Py.setitem map fst In] in *.
    + destruct Hin as [->|[]]. rewrite key_eqb_refl in He; done.
    + destruct (Py.key_eqb k0 k); cbn [map fst In] in Hin; [done|].
      destruct Hin as [?|?]; [by left | right; by apply IH].
Qed.

Lemma dict_comprehension_NoDup {A K V}
    (set : K -> V -> Py.dict K V -> result (Py.dict K V))
    (body : A -> result (option (K * V))) xs acc d :
  (forall k v d d', set k v d = Return d' ->
                    NoDup (map fst d) -> NoDup (map fst d')) ->
  Py.dict_comprehension set body xs acc = Return d ->
  NoDup (map fst acc) -> NoDup (map fst d).
Proof.
  intros Hset. revert acc. induction xs as [|x xs IH]; intros acc.
  - cbn [Py.dict_comprehension]. by intros [= ->].
  - cbn [Py.dict_comprehension].
    destruct (body x) as [[[k v]|]|e]; simpl_result; [| |done].
    + destruct (set k v acc) as [acc'|e] eqn:Hs; simpl_result; [|done].
      intros Hd Hacc. apply (IH _ Hd). by eapply Hset.
    + apply IH.
Qed.

Lemma set_str_NoDup {V} k (v : V) d d' :
  Py.set_str k v d = Return d' -> NoDup (map fst d) -> NoDup (map fst d').
Proof. intros [= <-]. apply setitem_NoDup. Qed.

Lemma set_json_NoDup {V} k (v : V) d d' :
  Py.set_json k v d = Return d' -> NoDup (map fst d) -> NoDup (map fst d').
Proof.
  unfold Py.set_json. destruct (Py.hashable k) eqn:Hk; [|done].
  intros [= <-]. by apply setitem_json_NoDup.
Qed.

(** The values stored by a comprehension with string keys are values
    computed by its body. *)
Lemma dict_comprehension_values {A V} (body : A -> result (option (string * V)))
    xs acc d k v :
  Py.dict_comprehension Py.set_str body xs acc = Return d ->
  In (k, v) d ->
  In (k, v) acc \/ exists x, In x xs /\ body x = Return (Some (k, v)).
Proof.
  revert acc. induction xs as [|x xs IH]; intros acc.
  - cbn [Py.dict_comprehension]. intros [= ->]. by left.
  - cbn [Py.dict_comprehension].
    destruct (body x) as [[[k' v']|]|e] eqn:Hb; simpl_result; [| |done].
    + unfold Py.set_str. simpl_result. intros Hd Hin.
      destruct (IH _ Hd Hin) as [[[= -> ->]|?]%setitem_In|(y & ? & ?)].
      * right. exists x. split; [by left | done].
      * by left.
      * right. exists y. split; [by right | done].
    + intros Hd Hin. destruct (IH _ Hd Hin) as [?|(y & ? & ?)]; [by left|].
      right. exists y. split; [by right | done].
Qed.

(** X7.  Whatever the payload, a result of [get_simulators] is a proper
    two-level mapping: no OS version occurs twice among its keys and no
    key occurs twice in any of its inner dictionaries. *)
Theorem get_simulators_distinct_keys json_loads os_name sub simulators :
  get_simulators json_loads os_name sub = Return simulators ->
  NoDup (map fst simulators) /\
  forall version inner, In (version, inner) simulators -> NoDup (map fst inner).
Proof.
  unfold get_simulators, try_except.
  destruct (sub simctl_list) as [output|e]; simpl_result; [|by destruct e].
  destruct (json_loads output) as [simctl_data|e]; simpl_result; [|by destruct e].
  destruct (os_versions_of os_name simctl_data) as [os_versions|e];
    simpl_result; [|by destruct e].
  destruct (simulators_of simctl_data os_versions) as [sims|e] eqn:Hsims;
    simpl_result; [|by destruct e].
  intros [= <-]. unfold simulators_of in Hsims. split.
  - eapply dict_comprehension_NoDup; [|exact Hsims|constructor].
    intros k v d d'. apply set_str_NoDup.
  - intros version inner Hin.
    destruct (dict_comprehension_values _ _ _ _ _ _ Hsims Hin)
      as [[]|([ver identifier] & _ & Hbody)].
    unfold devices_of in Hbody.
    destruct (simctl_data.["devices"]) as [devices|]; simpl_result_in Hbody; [|done].
    destruct (Py.getitem devices identifier) as [list|]; simpl_result_in Hbody; [|done].
    destruct (Py.iter list) as [entries|]; simpl_result_in Hbody; [|done].
    destruct (Py.dict_comprehension Py.set_json devices_item entries [])
      as [inner'|] eqn:Hinner; simpl_result_in Hbody; [|done].
    injection Hbody as _ <-.
    eapply dict_comprehension_NoDup; [|exact Hinner|constructor].
    intros k v d d'. apply set_json_NoDup.
Qed.

Lemma get_simulators_distinct_keys_witness :
  NoDup (map fst [("13.2", @nil (Py.json * Py.json));
                  ("14.0", [(Py.JStr "ABC", Py.JStr "iPhone 11")])]).
Proof.
  apply (proj1 (get_simulators_distinct_keys
                  (decodes listing_old_text listing_old) "iOS"
                  (always (Return listing_old_text)) _ eq_refl)).
Defined.

(** ** A runtime without a device list *)

Lemma os_versions_of_runtimes os_name simctl_data runtimes :
  simctl_data.["runtimes"] = Return (Py.JArr runtimes) ->
  forallb is_runtime runtimes = true ->
  os_versions_of os_name simctl_data =
  Return (dict_of String.eqb
            (map (fun runtime => (os_version runtime, field "identifier" runtime))
                 (List.filter (retained os_name) runtimes))).
Proof.
  intros Hrts Hall. unfold os_versions_of. rewrite Hrts. simpl_result.
  cbn [Py.iter]. simpl_result.
  apply (dict_comprehension_filter_map Py.set_str String.eqb _
           (retained os_name)
           (fun runtime => (os_version runtime, field "identifier" runtime))).
  - intros rt Hin. apply os_versions_item_runtime.
    rewrite forallb_forall in Hall. by apply Hall.
  - done.
Qed.

Lemma devices_of_missing simctl_data identifier :
  well_formed_devices simctl_data = true ->
  has_devices simctl_data identifier = false ->
  devices_of simctl_data (Py.JStr identifier) = Raise KeyError.
Proof.
  intros (Hdev & _)%well_formed_devices_groups Hhas.
  unfold has_devices in Hhas. unfold devices_of. rewrite Hdev. simpl_result.
  cbn [Py.getitem].
  by destruct (Py.assoc identifier (device_groups simctl_data)).
Qed.

Lemma dict_comprehension_raises {A K V}
    (set : K -> V -> Py.dict K V -> result (Py.dict K V))
    (body : A -> result (option (K * V))) (e : exception) xs acc :
  (forall k v d, exists d', set k v d = Return d') ->
  Forall (fun x => (exists item, body x = Return item) \/ body x = Raise e) xs ->
  Exists (fun x => body x = Raise e) xs ->
  Py.dict_comprehension set body xs acc = Raise e.
Proof.
  intros Hset Hall Hex. revert acc.
  induction Hall as [|x xs Hx Hall IH]; intros acc; [by inversion Hex|].
  cbn [Py.dict_comprehension].
  destruct Hx as [[item Hx]|Hx]; rewrite Hx; simpl_result; [|done].
  assert (Exists (fun x => body x = Raise e) xs) as Hex'.
  { inversion Hex; subst; [congruence | done]. }
  destruct item as [[k v]|]; [|by apply IH].
  destruct (Hset k v acc) as [d' ->]. simpl_result. by apply IH.
Qed.

(** X8.  When a retained runtime names an identifier that has no entry
    in the [devices] map of the payload, [get_simulators] raises
    [KeyError], whatever the other runtimes are; the runtimes of the
    payload are identified by their name. *)
Theorem get_simulators_missing_devices
    json_loads os_name sub output simctl_data runtimes runtime :
  sub simctl_list = Return output ->
  json_loads output = Return simctl_data ->
  simctl_data.["runtimes"] = Return (Py.JArr runtimes) ->
  forallb is_runtime runtimes = true ->
  well_formed_devices simctl_data = true ->
  In runtime runtimes ->
  retained os_name runtime = true ->
  has_devices simctl_data (runtime_identifier runtime) = false ->
  (forall other,
      In other runtimes ->
      retained os_name other = true ->
      os_version other = os_version runtime ->
      runtime_identifier other = runtime_identifier runtime) ->
  get_simulators json_loads os_name sub = Raise KeyError.
Proof.
  intros Hsub Hloads Hrts Hall Hdev Hin Hkeep Hmissing Hsame.
  rewrite (get_simulators_decoded _ _ _ _ _ Hsub Hloads).
  rewrite (os_versions_of_runtimes _ _ _ Hrts Hall). simpl_result.
  set (items := map (fun rt => (os_version rt, field "identifier" rt))
                    (List.filter (retained os_name) runtimes)).
  assert (forall item, In item (dict_of String.eqb items) ->
            exists other, In other runtimes /\ retained os_name other = true /\
                          item = (os_version other,
                                  Py.JStr (runtime_identifier other))) as Hitems.
  { intros item (other & <- & [Ho Hk]%filter_In)%dict_of_In%in_map_iff.
    exists other. repeat split; try done. f_equal.
    rewrite forallb_forall in Hall.
    destruct (is_runtime_fields _ (Hall _ Ho)) as (_ & Hi & _).
    by rewrite (field_Return _ _ _ Hi). }
  unfold simulators_of.
  rewrite (dict_comprehension_raises Py.set_str _ KeyError); [done| | |].
  - intros k v d. by eexists.
  - apply List.Forall_forall. intros item (other & Ho & Hk & ->)%Hitems.
    destruct (has_devices simctl_data (runtime_identifier other)) eqn:Hhas.
    + left. rewrite (devices_of_spec _ _ Hdev Hhas). by eexists.
    + right. by rewrite (devices_of_missing _ _ Hdev Hhas).
  - destruct (dict_of_get items (os_version runtime)) as (v & Hget & Hv).
    { unfold items. rewrite map_map. apply in_map_iff. exists runtime.
      split; [done|]. by apply filter_In. }
    apply List.Exists_exists. exists (os_version runtime, v).
    split; [by apply get_In|].
    destruct (Hitems _ (get_In _ _ _ Hget)) as (other & Ho & Hk & [= Hver ->]).
    rewrite (Hsame other Ho Hk (eq_sym Hver)).
    by rewrite (devices_of_missing _ _ Hdev Hmissing).
Qed.

Lemma get_simulators_missing_devices_witness :
  get_simulators (decodes listing_orphan_text listing_orphan) "iOS"
    (always (Return listing_orphan_text)) = Raise KeyError.
Proof.
  apply (get_simulators_missing_devices
           (decodes listing_orphan_text listing_orphan) "iOS"
           (always (Return listing_orphan_text)) listing_orphan_text listing_orphan
           [runtime_entry "iOS 14.0" ios_14 true]
           (runtime_entry "iOS 14.0" ios_14 true)).
  - reflexivity.
  - reflexivity.
  - reflexivity.
  - reflexivity.
  - reflexivity.
  - left. reflexivity.
  - reflexivity.
  - reflexivity.
  - intros other [<-|[]] _ _. reflexivity.
Defined.

(** ** The search of get_device_state *)

Lemma find_in_devices_skip udid devices rest :
  Forall (fun d => is_device d = true /\ device_udid d <> udid) devices ->
  find_in_devices udid (devices ++ rest)%list = find_in_devices udid rest.
Proof.
  induction 1 as [|d devices [Hd Hne] _ IH]; [done|].
  change ((d :: devices) ++ rest)%list with (d :: (devices ++ rest))%list.
  cbn [find_in_devices].
  destruct (is_device_fields _ Hd) as (Hu & _). rewrite Hu. simpl_result.
  cbn [Py.eq_str]. apply String.eqb_neq in Hne. by rewrite Hne.
Qed.

Lemma find_in_runtimes_skip udid (groups : list (string * list Py.json)) rest :
  Forall (fun group =>
            Forall (fun d => is_device d = true /\ device_udid d <> udid)
                   (snd group)) groups ->
  find_in_runtimes udid
    (map (fun group => (fst group, Py.JArr (snd group))) groups ++ rest)%list
  = find_in_runtimes udid rest.
Proof.
  induction 1 as [|[runtime devices] groups Hg _ IH]; [done|].
  cbn [map fst snd].
  change (((runtime, Py.JArr devices) :: ?l) ++ rest)%list
    with ((runtime, Py.JArr devices) :: (l ++ rest))%list.
  cbn [find_in_runtimes Py.iter]. simpl_result.
  rewrite <- (app_nil_r devices), (find_in_devices_skip _ _ _ Hg).
  cbn [find_in_devices]. by simpl_result.
Qed.

(** X9.  The search stops at the first entry with the given udid: what
    follows it in the payload, in the same device list or under later
    runtimes, is not inspected and may be anything. *)
Theorem get_device_state_first_match
    json_loads udid sub output simctl_data
    (before : list (string * list Py.json)) runtime devices device label
    (after : list Py.json) (later : list (string * Py.json)) :
  sub (simctl_list_devices udid) = Return output ->
  json_loads output = Return simctl_data ->
  simctl_data.["devices"] =
    Return (Py.JObj
              (map (fun group => (fst group, Py.JArr (snd group))) before
               ++ (runtime, Py.JArr (devices ++ device :: after)) :: later)%list) ->
  Forall (fun group =>
            Forall (fun d => is_device d = true /\ device_udid d <> udid)
                   (snd group)) before ->
  Forall (fun d => is_device d = true /\ device_udid d <> udid) devices ->
  device.["udid"] = Return (Py.JStr udid) ->
  device.["state"] = Return (Py.JStr label) ->
  get_device_state json_loads udid sub = Return (expected_state label).
Proof.
  intros Hsub Hloads Hdev Hbefore Hdevices Hu Hs.
  rewrite (get_device_state_decoded _ _ _ _ _ Hsub Hloads), Hdev. simpl_result.
  cbn [Py.items]. simpl_result.
  rewrite (find_in_runtimes_skip _ _ _ Hbefore).
  cbn [find_in_runtimes Py.iter]. simpl_result.
  rewrite (find_in_devices_skip _ _ _ Hdevices).
  cbn [find_in_devices]. rewrite Hu. simpl_result. cbn [Py.eq_str].
  rewrite String.eqb_refl, Hs. simpl_result.
  rewrite state_table_get_label. by simpl_result.
Qed.

Lemma get_device_state_first_match_witness :
  get_device_state (decodes scoped_ragged_text scoped_ragged) "ABC"
    (always (Return scoped_ragged_text)) = Return (expected_state "Booted").
Proof.
  apply (get_device_state_first_match
           (decodes scoped_ragged_text scoped_ragged) "ABC"
           (always (Return scoped_ragged_text)) scoped_ragged_text scoped_ragged
           [] ios_14 [device_entry "DEF" "iPhone 8" true "Creating"]
           (device_entry "ABC" "iPhone 11" true "Booted") "Booted"
           [Py.JNum 5] [(ios_13, Py.JNull)]).
  - reflexivity.
  - reflexivity.
  - reflexivity.
  - constructor.
  - repeat constructor. discriminate.
  - reflexivity.
  - reflexivity.
Defined.

(** ** get_simulators and get_device_state on one payload *)

Lemma get_device_state_first_device json_loads udid sub output simctl_data :
  sub (simctl_list_devices udid) = Return output ->
  json_loads output = Return simctl_data ->
  well_formed_devices simctl_data = true ->
  get_device_state json_loads udid sub =
  match first_device udid simctl_data with
  | Some d => Return (expected_state (device_state_label d))
  | None => Raise (device_not_found udid)
  end.
Proof.
  intros Hsub Hloads (Hdev & Hgroups)%well_formed_devices_groups.
  rewrite (get_device_state_decoded _ _ _ _ _ Hsub Hloads), Hdev. simpl_result.
  cbn [Py.items]. simpl_result.
  rewrite (find_in_runtimes_spec _ _ Hgroups). simpl_result.
  unfold first_device, all_devices. by destruct (List.find _ _).
Qed.

Lemma setitem_key_incl {K V} (eqb : K -> K -> bool) k (v : V) d x :
  In x (map fst (Py.setitem eqb k v d)) -> x = k \/ In x (map fst d).
Proof.
  induction d as [|[k' v'] d IH]; cbn [Py.setitem map fst In].
  - intros [<-|[]]. by left.
  - destruct (eqb k' k); cbn [map fst In]; [by right|].
    intros [<-|Hin]; [right; by left|]. destruct (IH Hin); auto.
Qed.

Lemma dict_of_key_incl {K V} (eqb : K -> K -> bool) (items : list (K * V)) x :
  In x (map fst (dict_of eqb items)) -> In x (map fst items).
Proof.
  unfold dict_of.
  assert (forall acc, In x (map fst (fold_left
            (fun d (item : K * V) => Py.setitem eqb (fst item) (snd item) d)
            items acc)) -> In x (map fst items) \/ In x (map fst acc)) as H.
  { induction items as [|it items IH]; intros acc; cbn [fold_left map In]; [auto|].
    intros [?|[<-|?]%setitem_key_incl]%IH; auto. }
  intros Hin. by destruct (H [] Hin) as [?|[]].
Qed.

Lemma devices_under_all simctl_data identifier device :
  In device (devices_under simctl_data identifier) ->
  In device (all_devices simctl_data).
Proof.
  unfold devices_under, all_devices.
  destruct (Py.assoc identifier (device_groups simctl_data)) as [v|] eqn:Hv; [|done].
  destruct v as [| | | |devices|]; try done. intros Hin.
  apply in_concat. exists devices. split; [|done].
  apply in_map_iff. exists (identifier, Py.JArr devices).
  split; [done | by apply assoc_In].
Qed.

(** X10.  On one and the same well-formed payload, every udid that
    [get_simulators] lists can be looked up with [get_device_state]: the
    lookup finds a device entry and returns its state instead of the
    device-not-found error. *)
Theorem listed_device_has_state
    json_loads os_name sub output output' simctl_data simulators version inner name udid :
  sub simctl_list = Return output ->
  json_loads output = Return simctl_data ->
  well_formed_listing os_name simctl_data = true ->
  sub (simctl_list_devices udid) = Return output' ->
  json_loads output' = Return simctl_data ->
  get_simulators json_loads os_name sub = Return simulators ->
  In (version, inner) simulators ->
  In (Py.JStr udid, name) inner ->
  exists device,
    first_device udid simctl_data = Some device /\
    get_device_state json_loads udid sub
    = Return (expected_state (device_state_label device)).
Proof.
  intros Hsub Hloads Hwf Hsub' Hloads' Hsims Hver Hinner.
  rewrite (get_simulators_well_formed _ _ _ _ _ Hsub Hloads Hwf) in Hsims.
  injection Hsims as <-.
  destruct (well_formed_listing_parts _ _ Hwf) as (_ & _ & Hdev & _).
  rewrite (get_device_state_first_device _ _ _ _ _ Hsub' Hloads' Hdev).
  apply in_map_iff in Hver as ([ver identifier] & [= <- <-] & _). cbn [snd] in Hinner.
  assert (In (Py.JStr udid) (map fst (available_devices simctl_data (text identifier))))
    as Hkey.
  { apply in_map_iff. by exists (Py.JStr udid, name). }
  apply dict_of_key_incl in Hkey. rewrite map_map in Hkey. cbn [fst] in Hkey.
  apply in_map_iff in Hkey as (d & Hu & [Hd _]%filter_In).
  pose proof (devices_under_devices _ (text identifier) Hdev) as Hall.
  rewrite forallb_forall in Hall.
  destruct (is_device_fields _ (Hall _ Hd)) as (Hud & _).
  rewrite (field_Return _ _ _ Hud) in Hu. injection Hu as Hu.
  destruct (first_device udid simctl_data) as [d'|] eqn:Hf; [by exists d'|].
  unfold first_device in Hf.
  pose proof (find_none _ _ Hf _ (devices_under_all _ _ _ Hd)) as Hne.
  apply String.eqb_neq in Hne. done.
Qed.

Lemma listed_device_has_state_witness :
  exists device,
    first_device "ABC" listing = Some device /\
    get_device_state (decodes listing_text listing) "ABC"
      (always (Return listing_text))
    = Return (expected_state (device_state_label device)).
Proof.
  apply (listed_device_has_state (decodes listing_text listing) "iOS"
           (always (Return listing_text)) listing_text listing_text listing
           [("14.0", [(Py.JStr "ABC", Py.JStr "iPhone 11")])]
           "14.0" [(Py.JStr "ABC", Py.JStr "iPhone 11")] (Py.JStr "iPhone 11") "ABC").
  - reflexivity.
  - reflexivity.
  - reflexivity.
  - reflexivity.
  - reflexivity.
  - reflexivity.
  - left. reflexivity.
  - left. reflexivity.
Defined.

(** ** The keys of the inventory *)

Lemma after_first_space_app os_name rest :
  has_char " " os_name = false ->
  after_first_space (os_name ++ " " ++ rest) = rest.
Proof.
  induction os_name as [|c os_name IH]; [done|]. cbn [has_char].
  intros [Hc Hrest]%orb_false_iff. rewrite append_String.
  cbn [after_first_space]. rewrite Hc. by apply IH.
Qed.

(** X11.  For an OS name without a space, a runtime named
    ['<os_name> <version>'] is recorded under [<version>], the name
    without its prefix, together with its identifier.  The availability
    flag is only tested for truth: any value that Python takes for true
    keeps the runtime. *)
Theorem os_versions_item_version os_name runtime version available identifier :
  has_char " " os_name = false ->
  runtime.["name"] = Return (Py.JStr (os_name ++ " " ++ version)) ->
  runtime.["isAvailable"] = Return available ->
  Py.truthy available = true ->
  runtime.["identifier"] = Return identifier ->
  os_versions_item os_name runtime = Return (Some (version, identifier)).
Proof.
  intros Hos Hn Ha Ht Hi. unfold os_versions_item.
  rewrite Hn, Ha, Hi. simpl_result. cbn [Py.startswith_ Py.split1_]. simpl_result.
  rewrite <- append_assoc, startswith_app. simpl_result. rewrite Ht. simpl_result.
  rewrite split1_after_first_space.
  - simpl_result. by rewrite append_assoc, after_first_space_app.
  - apply (startswith_has_space _ os_name). apply startswith_app.
Qed.

Lemma os_versions_item_version_witness :
  os_versions_item "iOS"
    (Py.JObj [("name", Py.JStr "iOS 14.0"); ("identifier", Py.JStr ios_14);
              ("isAvailable", Py.JStr "YES")])
  = Return (Some ("14.0", Py.JStr ios_14)).
Proof.
  apply (os_versions_item_version "iOS" _ "14.0" (Py.JStr "YES") (Py.JStr ios_14));
    reflexivity.
Defined.

(** * Properties of the disk image command *)

Fixpoint last_char (s : string) : option ascii :=
  match s with
  | EmptyString => None
  | String c EmptyString => Some c
  | String _ s' => last_char s'
  end.

Lemma last_char_app s c t : last_char (s ++ String c t) = last_char (String c t).
Proof.
  induction s as [|d s IH]; [done|]. rewrite append_String.
  change (last_char (String d (s ++ String c t)))
    with (match s ++ String c t with
          | EmptyString => Some d
          | _ => last_char (s ++ String c t)
          end).
  rewrite IH. destruct s; [done|]. by rewrite append_String.
Qed.

(** The two keys of [icon_locations] never coincide. *)
Lemma app_bundle_not_Applications formal_name :
  String.eqb (formal_name ++ ".app") "Applications" = false.
Proof.
  apply String.eqb_neq. intros H.
  apply (f_equal last_char) in H. rewrite last_char_app in H. discriminate H.
Qed.

Section macOSDmgProperties.

Variable path : Type.
Variables base_path platform_path : path.
Variable bundle_path : BaseConfig -> path.
Variable joinpath : path -> string -> path.
Variable path_exists : path -> bool.
Variable path_str : path -> string.
Variable build_dmg : path -> string -> Py.dict string (setting path) -> result unit.

Local Notation "'settings_of'" :=
  (dmg_settings_of path base_path bundle_path joinpath path_exists path_str).
Local Notation "'build'" :=
  (build_app path base_path platform_path bundle_path joinpath path_exists
     path_str build_dmg).
Local Notation "'file_of'" := (usable path base_path joinpath path_exists).
Local Notation "'missing'" := (dangling path base_path joinpath path_exists).

Ltac cases_of app :=
  destruct app as [name formal version icon installer background];
  unfold dmg_settings_of, find_icon, installer_icon_file, fallback_icon_file,
    add_background, usable, dangling;
  cbn [app_name app_formal_name app_version app_icon app_installer_icon
       app_installer_background];
  destruct installer as [installer|], icon as [icon|], background as [background|];
  cbn;
  repeat (match goal with
          | |- context [path_exists ?p] => destruct (path_exists p) eqn:?
          end; cbn).

Lemma icon_locations_display formal_name :
  dict_of String.eqb [(formal_name ++ ".app", (100, 100)); ("Applications", (300, 100))]
  = [(formal_name ++ ".app", (100, 100)); ("Applications", (300, 100))].
Proof.
  unfold dict_of. cbn [fold_left fst snd Py.setitem].
  by rewrite app_bundle_not_Applications.
Qed.

(** X12.  [build_app] always reaches the call of [build_dmg]: no
    missing attribute and no missing file makes it raise.  The call gets
    the distribution path, the volume name
    ['<formal_name> <version>'] and settings that always hold the
    application bundle as only file, the link to [/Applications] and two
    icon locations, and no other key than [icon] and [background]; the
    result of [build_app] is the result of the call. *)
Theorem build_app_calls_build_dmg app :
  exists dmg_settings,
    outcome (dmg_settings_of path base_path bundle_path joinpath path_exists path_str app) = Return dmg_settings /\
    (build_app path base_path platform_path bundle_path joinpath path_exists
     path_str build_dmg app) =
    IO (printed (dmg_settings_of path base_path bundle_path joinpath path_exists path_str app))
       (build_dmg (joinpath platform_path
                     (app_formal_name app ++ "-" ++ app_version app ++ ".dmg"))
                  (app_formal_name app ++ " " ++ app_version app)
                  dmg_settings) /\
    Py.get String.eqb "files" dmg_settings
    = Some (Files [path_str (bundle_path app)]) /\
    Py.get String.eqb "symlinks" dmg_settings
    = Some (Symlinks [("Applications", "/Applications")]) /\
    Py.get String.eqb "icon_locations" dmg_settings
    = Some (IconLocations [(app_formal_name app ++ ".app", (100, 100));
                           ("Applications", (300, 100))]) /\
    incl (map fst dmg_settings)
         ["files"; "symlinks"; "icon_locations"; "icon"; "background"].
Proof.
  assert (exists dmg_settings,
    outcome (settings_of app) = Return dmg_settings /\
    Py.get String.eqb "files" dmg_settings
    = Some (Files [path_str (bundle_path app)]) /\
    Py.get String.eqb "symlinks" dmg_settings
    = Some (Symlinks [("Applications", "/Applications")]) /\
    Py.get String.eqb "icon_locations" dmg_settings
    = Some (IconLocations [(app_formal_name app ++ ".app", (100, 100));
                           ("Applications", (300, 100))]) /\
    incl (map fst dmg_settings)
         ["files"; "symlinks"; "icon_locations"; "icon"; "background"])
    as (dmg_settings & Hout & Hrest).
  { rewrite <- (icon_locations_display (app_formal_name app)).
    cases_of app; eexists; (split; [reflexivity|]);
      repeat split; intros k Hk; cbn in Hk |- *; tauto. }
  exists dmg_settings. split; [done|]. split; [|done].
  unfold build_app, distribution_path.
  destruct (settings_of app) as [lines out]. cbn [outcome printed] in *. subst out.
  unfold mbind, io_bind, lift. cbn [outcome printed]. by rewrite app_nil_r.
Qed.

(** X13.  The installer icon has priority over the application icon,
    and an icon is only set when its file exists: [icon] is the
    [.icns] file of [installer_icon] when that attribute is set and the
    file exists; otherwise the [.icns] file of [icon] under the same
    conditions; otherwise the settings have no [icon] at all. *)
Theorem build_app_icon app dmg_settings :
  outcome (dmg_settings_of path base_path bundle_path joinpath path_exists path_str app) = Return dmg_settings ->
  Py.get String.eqb "icon" dmg_settings =
  match usable path base_path joinpath path_exists (app_installer_icon app) ".icns" with
  | Some file => Some (Location file)
  | None =>
      match usable path base_path joinpath path_exists (app_icon app) ".icns" with
      | Some file => Some (Location file)
      | None => None
      end
  end.
Proof.
  cases_of app; by intros [= <-].
Qed.

(** X14.  The background is the [.png] file of [installer_background]
    when that attribute is set and the file exists; otherwise the
    settings have no [background]. *)
Theorem build_app_background app dmg_settings :
  outcome (dmg_settings_of path base_path bundle_path joinpath path_exists path_str app) = Return dmg_settings ->
  Py.get String.eqb "background" dmg_settings =
  match usable path base_path joinpath path_exists (app_installer_background app) ".png" with
  | Some file => Some (Location file)
  | None => None
  end.
Proof.
  cases_of app; by intros [= <-].
Qed.

(** X15.  [build_app] prints its two opening lines and nothing else
    exactly when no attribute it consults is dangling (set, but naming a
    file that does not exist): not [installer_icon], not
    [installer_background], and not [icon] in case the installer icon
    cannot be used.  A dangling [icon] goes unnoticed when the installer
    icon is usable. *)
Theorem build_app_quiet app :
  printed (build_app path base_path platform_path bundle_path joinpath path_exists
     path_str build_dmg app) = [""; "[" ++ app_name app ++ "] Building DMG..."] <->
  dangling path base_path joinpath path_exists (app_installer_icon app) ".icns" = false /\
  (usable path base_path joinpath path_exists (app_installer_icon app) ".icns" = None ->
   dangling path base_path joinpath path_exists (app_icon app) ".icns" = false) /\
  dangling path base_path joinpath path_exists (app_installer_background app) ".png" = false.
Proof.
  assert (printed (build app) = printed (settings_of app)) as ->.
  { unfold build_app. destruct (settings_of app) as [lines [s|e]]; [|done].
    unfold mbind, io_bind, lift. cbn [outcome printed]. by rewrite app_nil_r. }
  cases_of app; split; try done; try (intros (? & ? & ?); done);
    intros (? & H & ?); by specialize (H eq_refl).
Qed.

End macOSDmgProperties.

Lemma build_app_icon_witness :
  Py.get String.eqb "icon"
    [("files", Files ["/proj/macOS/Hello World.app"]);
     ("symlinks", Symlinks [("Applications", "/Applications")]);
     ("icon_locations",
      IconLocations [("Hello World.app", (100, 100)); ("Applications", (300, 100))]);
     ("icon", Location "/proj/icons/hello.icns")]
  = Some (Location "/proj/icons/hello.icns").
Proof.
  apply (build_app_icon string "/proj"
           (fun app => "/proj/macOS/" ++ app_formal_name app ++ ".app")
           slash (listed ["/proj/icons/hello.icns"]) id helloworld).
  reflexivity.
Defined.

Lemma build_app_background_witness :
  Py.get String.eqb "background"
    [("files", Files ["/proj/macOS/Hello World.app"]);
     ("symlinks", Symlinks [("Applications", "/Applications")]);
     ("icon_locations",
      IconLocations [("Hello World.app", (100, 100)); ("Applications", (300, 100))]);
     ("icon", Location "/proj/icons/hello.icns")]
  = None.
Proof.
  apply (build_app_background string "/proj"
           (fun app => "/proj/macOS/" ++ app_formal_name app ++ ".app")
           slash (listed ["/proj/icons/hello.icns"]) id helloworld).
  reflexivity.
Defined.

Lemma build_app_quiet_witness :
  printed (build_app string "/proj" "/proj/macOS"
             (fun app => "/proj/macOS/" ++ app_formal_name app ++ ".app")
             slash (listed ["/proj/icons/installer.icns"]) id
             (fun _ _ _ => Return tt) helloworld)
  = [""; "[helloworld] Building DMG..."].
Proof.
  apply (proj2 (build_app_quiet string "/proj" "/proj/macOS"
                  (fun app => "/proj/macOS/" ++ app_formal_name app ++ ".app")
                  slash (listed ["/proj/icons/installer.icns"]) id
                  (fun _ _ _ => Return tt) helloworld)).
  repeat split. discriminate.
Defined.

(** * The device lists that get_simulators reads *)

Lemma devices_of_list simctl_data groups identifier devices :
  simctl_data.["devices"] = Return (Py.JObj groups) ->
  Py.assoc identifier groups = Some (Py.JArr devices) ->
  forallb is_device devices = true ->
  devices_of simctl_data (Py.JStr identifier)
  = Return (available_devices simctl_data identifier).
Proof.
  intros Hdev Hv Hlist.
  unfold available_devices, devices_under, device_groups.
  rewrite (field_Return _ _ _ Hdev), Hv.
  unfold devices_of. rewrite Hdev. simpl_result.
  cbn [Py.getitem]. rewrite Hv. simpl_result. cbn [Py.iter]. simpl_result.
  apply (dict_comprehension_filter_map Py.set_json Py.key_eqb _ is_available
           (fun device => (field "udid" device, field "name" device))).
  - intros d Hin. apply devices_item_device.
    rewrite forallb_forall in Hlist. by apply Hlist.
  - intros d acc Hin _. cbn [fst snd]. unfold Py.set_json.
    rewrite forallb_forall in Hlist.
    destruct (is_device_fields _ (Hlist _ Hin)) as (Hu & _).
    by rewrite (field_Return _ _ _ Hu).
Qed.

(** X16.  [get_simulators] only reads the device lists of the retained
    runtimes: it returns the inventory as soon as the runtimes are
    well-formed and the identifier of every retained runtime leads to a
    list of device objects, whatever else the [devices] map holds and
    whether or not the other runtimes have an entry in it. *)
Theorem get_simulators_reads_retained
    json_loads os_name sub output simctl_data runtimes groups :
  sub simctl_list = Return output ->
  json_loads output = Return simctl_data ->
  simctl_data.["runtimes"] = Return (Py.JArr runtimes) ->
  forallb is_runtime runtimes = true ->
  simctl_data.["devices"] = Return (Py.JObj groups) ->
  (forall runtime,
      In runtime runtimes ->
      retained os_name runtime = true ->
      exists devices,
        Py.assoc (runtime_identifier runtime) groups = Some (Py.JArr devices) /\
        forallb is_device devices = true) ->
  get_simulators json_loads os_name sub
  = Return (expected_simulators os_name simctl_data).
Proof.
  intros Hsub Hloads Hrts Hall Hdev Hlists.
  rewrite (get_simulators_decoded _ _ _ _ _ Hsub Hloads).
  rewrite (os_versions_of_runtimes _ _ _ Hrts Hall). simpl_result.
  unfold expected_simulators, retained_versions, runtimes_of.
  rewrite (field_Return _ _ _ Hrts).
  rewrite simulators_of_spec; [done | apply dict_of_NoDup_keys |].
  intros item (rt & <- & [Hin Hkeep]%filter_In)%dict_of_In%in_map_iff. cbn [snd].
  rewrite forallb_forall in Hall.
  destruct (is_runtime_fields _ (Hall _ Hin)) as (_ & Hi & _).
  rewrite (field_Return _ _ _ Hi). cbn [text].
  destruct (Hlists _ Hin Hkeep) as (devices & Hv & Hlist).
  by eapply devices_of_list.
Qed.

Lemma get_simulators_reads_retained_witness :
  get_simulators (decodes listing_stray_text listing_stray) "iOS"
    (always (Return listing_stray_text))
  = Return (expected_simulators "iOS" listing_stray).
Proof.
  apply (get_simulators_reads_retained
           (decodes listing_stray_text listing_stray) "iOS"
           (always (Return listing_stray_text)) listing_stray_text listing_stray
           [runtime_entry "iOS 14.0" ios_14 true]
           [(ios_13, Py.JNum 7);
            (ios_14, Py.JArr [device_entry "ABC" "iPhone 11" true "Booted"])]).
  - reflexivity.
  - reflexivity.
  - reflexivity.
  - reflexivity.
  - reflexivity.
  - intros runtime [<-|[]] _.
    exists [device_entry "ABC" "iPhone 11" true "Booted"]. split; reflexivity.
Defined.

Example get_simulators_stray_entry :
  get_simulators (decodes listing_stray_text listing_stray) "iOS"
    (always (Return listing_stray_text))
  = Return [("14.0", [(Py.JStr "ABC", Py.JStr "iPhone 11")])].
Proof. reflexivity. Qed.
